(** * Eidolon: job queue, status polling, prompt submission and the
      iterative improvement loop, embedded in Rocq. *)

From Stdlib Require Import ZArith List String Ascii Bool Lia.
From Stdlib Require Import QArith.
From Stdlib Require Import Floats.
From Stdlib Require Import Sorting.Permutation Sorting.Sorted.
Import ListNotations.
Set Warnings "-register-all".
Open Scope string_scope.
Open Scope Z_scope.

(* ================================================================== *)
(** ** frontend/lib/store.ts : the queue slice of the zustand store *)
(* ================================================================== *)

Module Store.

(** [QueueItem['status']] *)
Inductive QueueStatus := Queued | Rendering | Complete | Error.

(** [type QueueItem]. [id] and [createdAt] come from [Date.now()], an
    integer number of milliseconds; [progress] is a JS number (a double);
    an optional field that is absent or [undefined] is [None]. *)
Record QueueItem := mkItem {
  id : Z;
  prompt : string;
  videoId : option string;
  status : QueueStatus;
  progress : option float;
  message : option string;
  videoUrl : option string;
  createdAt : Z
}.

(** [addToQueue(prompt, videoId)]: [id] and [createdAt] are two calls of
    [Date.now()], passed here as [now_id] and [now_created]; the literal
    has no [message] or [videoUrl] key. *)
Definition addToQueue (now_id now_created : Z) (prompt : string) (videoId : option string)
    (queue : list QueueItem) : list QueueItem :=
  queue ++ [ {| id := now_id; prompt := prompt; videoId := videoId;
                status := Queued; progress := Some 0%float;
                message := None; videoUrl := None; createdAt := now_created |} ].

(** [updateQueueItemStatus(id, status, progress?, message?, videoUrl?)]:
    [state.queue.map(item => item.id === id ? {...item, status, progress,
    message, videoUrl} : item)]. *)
Definition updateQueueItemStatus (id0 : Z) (st : QueueStatus)
    (pr : option float) (msg : option string) (url : option string)
    (queue : list QueueItem) : list QueueItem :=
  map (fun item =>
         if Z.eqb (id item) id0
         then {| id := id item; prompt := prompt item; videoId := videoId item;
                 status := st; progress := pr; message := msg;
                 videoUrl := url; createdAt := createdAt item |}
         else item) queue.

(** [removeFromQueue(id)] *)
Definition removeFromQueue (id0 : Z) (queue : list QueueItem) : list QueueItem :=
  filter (fun item => negb (Z.eqb (id item) id0)) queue.

(** Position of a status along the state graph of the spec
    (queued, rendering, complete; error terminal). *)
Definition status_rank (s : QueueStatus) : nat :=
  match s with Queued => 0 | Rendering => 1 | Complete => 2 | Error => 3 end%nat.

Definition is_terminal (s : QueueStatus) : bool :=
  match s with Complete | Error => true | _ => false end.

(** A finished job used in the examples. *)
Definition finished_item : QueueItem :=
  {| id := 1; prompt := "a circle"; videoId := Some "v1"; status := Complete;
     progress := Some 100%float; message := Some "done";
     videoUrl := Some "/api/video/v1"; createdAt := 1 |}.


End Store.

(* ================================================================== *)
(** ** JavaScript numbers: the double operations the routes use *)
(* ================================================================== *)

Module JsNum.

Open Scope float_scope.

(** The double nearest to an integer (round-to-nearest-even), as the
    conversion of an integer-valued number literal or of [Date.now()]. *)
Definition of_Z (z : Z) : float :=
  SF2Prim (SpecFloat.binary_normalize prec emax z 0 false).

(** [Math.floor]: zeros, infinities and NaN are returned as they are; a
    finite [(-1)^s * m * 2^e] with [e >= 0] is already an integer. *)
Definition floor (x : float) : float :=
  match Prim2SF x with
  | SpecFloat.S754_finite s m e =>
      if (0 <=? e)%Z then x
      else of_Z (Z.div (if s then Zneg m else Zpos m) (2 ^ (- e)))
  | _ => x
  end.

Definition is_nan (x : float) : bool := negb (PrimFloat.eqb x x).

(** [Math.min(x, y)]: NaN if either argument is NaN. *)
Definition min (x y : float) : float :=
  if is_nan x then x else if is_nan y then y
  else if PrimFloat.ltb y x then y else x.

(** The JavaScript NaN. *)
Definition nan : float := PrimFloat.nan.

End JsNum.

(* ================================================================== *)
(** ** JavaScript strings: [split] and [parseInt] *)
(* ================================================================== *)

Module JsStr.

(** [s.split(sep)] for a one-character separator. *)
Fixpoint split (sep : Ascii.ascii) (s : string) : list string :=
  match s with
  | EmptyString => [EmptyString]
  | String c rest =>
      if Ascii.eqb c sep then EmptyString :: split sep rest
      else match split sep rest with
           | w :: ws => String c w :: ws
           | [] => [String c EmptyString]
           end
  end.

(** White space skipped by [parseInt] (StrWhiteSpaceChar), for strings
    whose characters are UTF-16 code units below 256: tab, line feed,
    vertical tab, form feed, carriage return, space and no-break space
    (U+00A0). *)
Definition is_space (c : Ascii.ascii) : bool :=
  let n := Ascii.nat_of_ascii c in
  (Nat.eqb n 32 || Nat.eqb n 9 || Nat.eqb n 10 || Nat.eqb n 11
   || Nat.eqb n 12 || Nat.eqb n 13 || Nat.eqb n 160)%bool.

Fixpoint trim_start (s : string) : string :=
  match s with
  | String c rest => if is_space c then trim_start rest else s
  | EmptyString => s
  end.

(** Value of a digit in the given radix (10 or 16). *)
Definition digit_value (radix : Z) (c : Ascii.ascii) : option Z :=
  let n := Z.of_nat (Ascii.nat_of_ascii c) in
  let v := if (48 <=? n) && (n <=? 57) then Some (n - 48)
           else if (97 <=? n) && (n <=? 122) then Some (n - 87)
           else if (65 <=? n) && (n <=? 90) then Some (n - 55)
           else None in
  match v with Some d => if d <? radix then Some d else None | None => None end.

(** The longest prefix of digits: [(number of digits, value)]. *)
Fixpoint digits (radix : Z) (s : string) (cnt : nat) (acc : Z) : nat * Z :=
  match s with
  | String c rest =>
      match digit_value radix c with
      | Some d => digits radix rest (S cnt) (acc * radix + d)
      | None => (cnt, acc)
      end
  | EmptyString => (cnt, acc)
  end.

(** [parseInt(s)] with no radix argument: leading white space, an
    optional sign, a [0x]/[0X] prefix selecting radix 16, then the longest
    run of digits; NaN when there is no digit. *)
Definition parseInt (s : string) : float :=
  let t := trim_start s in
  let '(neg, t) := match t with
                   | String "-"%char r => (true, r)
                   | String "+"%char r => (false, r)
                   | _ => (false, t)
                   end in
  let '(radix, t) := match t with
                     | String "0"%char (String "x"%char r) => (16, r)
                     | String "0"%char (String "X"%char r) => (16, r)
                     | _ => (10, t)
                     end in
  let '(cnt, v) := digits radix t O 0 in
  if Nat.eqb cnt O then JsNum.nan
  else if neg then PrimFloat.opp (JsNum.of_Z v) else JsNum.of_Z v.

End JsStr.

(* ================================================================== *)
(** ** frontend/app/api/video-status/[sessionId]/route.ts : GET *)
(* ================================================================== *)

Module VideoStatus.

Open Scope float_scope.

(** The JSON body of a status response ([VideoStatusResponse] of
    types/index.ts); a key the object literal does not write is [None]. *)
Record VideoStatusResponse := mkResp {
  vs_status : string;
  vs_progress : option float;
  vs_message : option string;
  vs_videoUrl : option string;
  vs_error : option string
}.

Definition mock_video_url : string :=
  "https://commondatastorage.googleapis.com/gtv-videos-bucket/sample/BigBuckBunny.mp4".

(** [parseInt(sessionId.split('_')[1] || '0')]: a missing or empty second
    field falls back to ['0']. *)
Definition sessionTimestamp (sessionId : string) : float :=
  let field := match nth_error (JsStr.split "_"%char sessionId) 1 with
               | Some EmptyString | None => "0"%string
               | Some f => f
               end in
  JsStr.parseInt field.

(** The body of the [try] block once [elapsed = Date.now() - sessionTimestamp]
    is known. *)
Definition response_for_elapsed (elapsed : float) : VideoStatusResponse :=
  if PrimFloat.ltb elapsed 10000 then
    {| vs_status := "generating";
       vs_progress := Some (JsNum.min (JsNum.floor ((elapsed / 10000) * 100)) 99);
       vs_message := Some "Generating Manim animation...";
       vs_videoUrl := None; vs_error := None |}
  else
    {| vs_status := "completed"; vs_progress := None;
       vs_message := Some "Video generated successfully";
       vs_videoUrl := Some mock_video_url; vs_error := None |}.

(** [GET(request, {params})] at wall-clock time [now] ([Date.now()], in
    milliseconds). No statement in the [try] block throws for a string
    [sessionId] ([split], [parseInt] and arithmetic do not), so the
    result is the [try] block's response, with HTTP status 200. *)
Definition GET (sessionId : string) (now : Z) : VideoStatusResponse :=
  response_for_elapsed (JsNum.of_Z now - sessionTimestamp sessionId).

(** The progress check of the generating branch at an integer elapsed time. *)
Definition progress_ok (e : Z) : bool :=
  match vs_progress (response_for_elapsed (JsNum.of_Z e)) with
  | Some x => PrimFloat.leb 0 x && PrimFloat.leb x 99
  | None => false
  end.

(** The response of the [catch] block (HTTP status 500). *)
Definition GET_error_response : VideoStatusResponse :=
  {| vs_status := "error"; vs_progress := None; vs_message := None;
     vs_videoUrl := None; vs_error := Some "Failed to get video status" |}.

End VideoStatus.

(* ================================================================== *)
(** ** frontend/lib/api.ts : getQueueStatus *)
(* ================================================================== *)

Module Api.

(** A parsed JSON value. *)
Inductive json :=
| JNull
| JBool (b : bool)
| JNum (x : float)
| JStr (s : string)
| JArr (l : list json)
| JObj (kv : list (string * json)).

(** Property read on an object produced by [JSON.parse]: a repeated key
    keeps its last value; a missing key reads as [undefined] ([None]). *)
Fixpoint lookup (key : string) (kv : list (string * json)) : option json :=
  match kv with
  | [] => None
  | (k, v) :: rest =>
      match lookup key rest with
      | Some w => Some w
      | None => if String.eqb k key then Some v else None
      end
  end.

(** What [fetch] resolves to: [response.ok] and the parsed body. *)
Record FetchResponse := mkFetch { ok : bool; body : json }.

(** A promise that resolves to a value or rejects with an error message. *)
Inductive Result (A : Type) := Ok (a : A) | Throw (msg : string).
Arguments Ok {A} a.
Arguments Throw {A} msg.

(** [getQueueStatus(videoId)] once [fetch('/api/video/' + videoId)] has
    resolved to [resp]: [data.status], where reading a property of [null]
    throws a TypeError and other non-object values have no [status]. *)
Definition getQueueStatus (resp : FetchResponse) : Result (option json) :=
  if negb (ok resp) then Throw "Failed to get queue status"
  else match body resp with
       | JNull => Throw "TypeError: Cannot read properties of null"
       | JObj kv => Ok (lookup "status" kv)
       | _ => Ok None
       end.

(** [NextResponse.json(...)] of a status response: the keys the object
    literal writes; [JSON.stringify] writes a non-finite number as [null]. *)
Definition json_number (x : float) : json :=
  match Prim2SF x with
  | SpecFloat.S754_zero _ | SpecFloat.S754_finite _ _ _ => JNum x
  | _ => JNull
  end.

Definition json_of_response (r : VideoStatus.VideoStatusResponse) : json :=
  let opt {A} (k : string) (f : A -> json) (v : option A) :=
    match v with Some a => [(k, f a)] | None => [] end in
  JObj ([("status", JStr (VideoStatus.vs_status r))]
        ++ opt "progress" json_number (VideoStatus.vs_progress r)
        ++ opt "message" JStr (VideoStatus.vs_message r)
        ++ opt "videoUrl" JStr (VideoStatus.vs_videoUrl r)
        ++ opt "error" JStr (VideoStatus.vs_error r)).

End Api.

(* ================================================================== *)
(** ** server/mongodb.ts : connectToDb and createVideoPrompt
       (src/unnamed/part_000, first copy, lines 14-127) *)
(* ================================================================== *)

Module Mongo.

Import Api.

(** JavaScript truthiness of a property read on a parsed JSON value: a
    missing key ([undefined]), [null], [false], [0], [-0], [NaN] and [""]
    are falsy. *)
Definition truthy (v : option json) : bool :=
  match v with
  | None | Some JNull => false
  | Some (JBool b) => b
  | Some (JNum x) => negb (PrimFloat.eqb x 0) && PrimFloat.eqb x x
  | Some (JStr s) => match s with EmptyString => false | String _ _ => true end
  | Some (JArr _) | Some (JObj _) => true
  end.

(** Truthiness of an environment variable ([undefined] or a string). *)
Definition truthy_str (v : option string) : bool :=
  match v with Some (String _ _) => true | _ => false end.

(** Whether converting a parsed JSON value to a string throws (string
    concatenation, [String(v)], [v.toString()], [formData.append]): an
    object with an own [toString] key has a non-callable [toString] and
    no [valueOf] giving a primitive, so [ToPrimitive] throws a TypeError;
    an array is joined, converting each element that is not [null]. *)
Fixpoint str_throws (v : json) : bool :=
  match v with
  | JObj kv => match lookup "toString" kv with Some _ => true | None => false end
  | JArr l => (fix go (l : list json) : bool :=
                 match l with [] => false | x :: r => str_throws x || go r end) l
  | _ => false
  end.

(** The [_id] of a document: one the driver generates ([n] numbers the
    ObjectIds it hands out), or the non-null [_id] of the request body,
    which the spread copies into the document and the driver keeps. *)
Inductive DocId :=
| Generated (n : Z)
| Supplied (v : json).

(** A document of the [videoPrompts] collection,
    [{...promptData, status: 'pending', createdAt}]: [d_fields] are the
    request body's own keys, spread first, so that [status] and
    [createdAt] override a key of the same name. *)
Record Doc := mkDoc {
  d_id : DocId;
  d_fields : list (string * json);
  d_status : string;
  d_createdAt : Z
}.

(** The state the module and the database keep: the cached connection
    ([cachedClient && cachedDb]), the collection's documents, and the
    next ObjectId the driver generates. *)
Record DbState := mkDb { cached : bool; docs : list Doc; next_id : Z }.

(** The outcomes of the external calls of one request, each as observed:
    whether a fresh [client.connect()] resolves (it is only attempted
    when no connection is cached), whether [insertOne] resolves (it
    rejects when the server cannot be reached, also over a cached
    connection, or refuses the document, e.g. a duplicate [_id]),
    [process.env.BACKEND_API_URL], whether the [fetch] to the backend
    resolves, and [new Date()]. [MONGODB_URI] is assumed set: without it
    the module throws when it is loaded. *)
Record Env := mkEnv {
  connect_ok : bool;
  insert_ok : bool;
  backend_url : option string;
  fetch_resolves : bool;
  clock : Z
}.

(** [connectToDb()]: the cached connection when there is one, otherwise a
    fresh [client.connect()] that is cached on success. *)
Definition connectToDb (env : Env) (st : DbState) : option DbState :=
  if cached st then Some st
  else if connect_ok env then Some {| cached := true; docs := docs st; next_id := next_id st |}
  else None.

(** The non-null [_id] a request body supplies: the driver generates an
    ObjectId when [doc._id == null]. *)
Definition supplied_id (kv : list (string * json)) : option json :=
  match lookup "_id" kv with
  | None | Some JNull => None
  | Some v => Some v
  end.

(** Whether [String(_id)] (or [_id.toString()]) throws. *)
Definition id_str_throws (i : DocId) : bool :=
  match i with Supplied v => str_throws v | Generated _ => false end.

(** The value [createVideoPrompt] resolves to. *)
Inductive CreateResult :=
| CreateOk (insertedId : DocId)        (* [{success: true, data: {insertedId}}] *)
| CreateErr (error : string).          (* [{success: false, error}] *)

(** [createVideoPrompt(promptData)] for a request body that is the JSON
    object [kv]. After [insertOne], the two log lines concatenate
    [result.insertedId] and [formData.append] converts the prompt to a
    string; a throw there, or a rejected [fetch], lands in the [catch]. *)
Definition createVideoPrompt (env : Env) (kv : list (string * json)) (st : DbState)
    : CreateResult * DbState :=
  if negb (truthy (lookup "userid" kv)) || negb (truthy (lookup "prompt" kv)) then
    (CreateErr "User ID and prompt are required.", st)
  else
    match connectToDb env st with
    | None => (CreateErr "Failed to connect to the database.", st)
    | Some st1 =>
        if negb (insert_ok env) then (CreateErr "Failed to create the document.", st1)
        else
          let '(newId, next) := match supplied_id kv with
                                | Some v => (Supplied v, next_id st1)
                                | None => (Generated (next_id st1), next_id st1 + 1)
                                end in
          let doc := {| d_id := newId; d_fields := kv; d_status := "pending";
                        d_createdAt := clock env |} in
          let st2 := {| cached := cached st1; docs := docs st1 ++ [doc]; next_id := next |} in
          if id_str_throws newId then (CreateErr "Failed to create the document.", st2)
          else if negb (truthy_str (backend_url env)) then
            (CreateErr "BACKEND_API_URL environment variable not defined", st2)
          else if match lookup "prompt" kv with Some p => str_throws p | None => false end then
            (CreateErr "Failed to create the document.", st2)
          else if fetch_resolves env then (CreateOk newId, st2)
          else (CreateErr "Failed to create the document.", st2)
    end.

(** What [await req.json()] gives: a parsed value, or a rejection with
    the parser's message. *)
Inductive Body :=
| NotJson (msg : string)
| Json (v : json).

(** The response of a route handler: HTTP status and JSON body
    [{success, insertedId?, error?}]. *)
Record PostResponse := mkPost {
  http_status : Z;
  success : bool;
  insertedId : option DocId;
  error : option string
}.

(** The [catch] of the route: [{success: false, error: e.message ||
    'Unknown error'}] with status 500. *)
Definition caught (msg : string) : PostResponse :=
  {| http_status := 500; success := false; insertedId := None;
     error := Some (match msg with EmptyString => "Unknown error" | _ => msg end) |}.

(** [POST(req)] of the create-video-prompt route (src/unnamed/part_003).
    Reading [body.userid] on [null] throws a TypeError; on any other value
    that is not an object it is [undefined]. *)
Definition POST (env : Env) (body : Body) (st : DbState) : PostResponse * DbState :=
  match body with
  | NotJson msg => (caught msg, st)
  | Json JNull => (caught "Cannot read properties of null (reading 'userid')", st)
  | Json v =>
      let kv := match v with JObj kv => kv | _ => [] end in
      if negb (truthy (lookup "userid" kv)) || negb (truthy (lookup "prompt" kv)) then
        ({| http_status := 400; success := false; insertedId := None;
            error := Some "Missing userid or prompt" |}, st)
      else
        let '(result, st') := createVideoPrompt env kv st in
        match result with
        | CreateOk i => ({| http_status := 200; success := true;
                            insertedId := Some i; error := None |}, st')
        | CreateErr _ => ({| http_status := 500; success := false; insertedId := None;
                             error := Some "Failed to create video prompt" |}, st')
        end
  end.

End Mongo.

(* ================================================================== *)
(** ** The Improvement Loop (spec 4.5) *)
(* ================================================================== *)

Module Improve.

Open Scope Q_scope.

(** Structured feedback of one scoring call. *)
Record Feedback := mkFeedback {
  dimension_scores : list Q;
  overall : Q;
  satisfied : bool
}.

Inductive Outcome := OSatisfied | OExhausted | OAborted.

Section Loop.

(** Script and video artifacts are opaque to the loop. *)
Variables Script Video : Type.

(** The collaborators: the render path (cache/watcher), the scorer
    (per-dimension scores of a video), the patcher, and the structural
    validation of a script. *)
Variable render : Script -> Video.
Variable score : Video -> list Q.
Variable patch : Script -> Feedback -> Script.
Variable valid : Script -> bool.
Variable target : Q.

Record IterationRecord := mkRecord {
  it_index : nat;
  it_script : Script;
  it_video : Video;
  it_feedback : Feedback
}.

Record Session := mkSession {
  records : list IterationRecord;
  outcome : Outcome;
  improvement : Q
}.

(** Arithmetic mean of the dimension scores. *)
Definition mean (xs : list Q) : Q :=
  fold_right Qplus 0 xs / inject_Z (Z.of_nat (List.length xs)).

(** Step 2: score a video; [satisfied] is [overall >= target]. *)
Definition feedback_of (v : Video) : Feedback :=
  let dims := score v in
  let ov := mean dims in
  {| dimension_scores := dims; overall := ov; satisfied := Qle_bool target ov |}.

(** Step 6: the script of the next iteration; an invalid candidate is
    discarded and the current script is kept. *)
Definition next_script (cur : Script) (fb : Feedback) : Script :=
  let cand := patch cur fb in
  if valid cand then cand else cur.

(** Modelled from the spec: the Improvement Loop of section 4.5, whose
    implementation (video_improver.py) is not part of the sources.
    [remaining] counts the iterations [i .. max] still allowed. Steps 1-3
    render, score and record; step 4 stops on [satisfied]; step 5 stops
    with [exhausted] at [i = max]; step 6 patches and continues. With
    [max = 0] the loop body never runs and the session closes as
    exhausted with no record. *)
Fixpoint loop (remaining : nat) (i : nat) (cur : Script)
    : list IterationRecord * Outcome :=
  match remaining with
  | O => ([], OExhausted)
  | S r =>
      let v := render cur in
      let fb := feedback_of v in
      let rc := {| it_index := i; it_script := cur; it_video := v; it_feedback := fb |} in
      if satisfied fb then ([rc], OSatisfied)
      else match r with
           | O => ([rc], OExhausted)
           | S _ =>
               let '(rest, out) := loop r (S i) (next_script cur fb) in
               (rc :: rest, out)
           end
  end.

(** Reported improvement: final overall score minus the first one. *)
Definition improvement_of (recs : list IterationRecord) : Q :=
  match recs with
  | [] => 0
  | r0 :: _ => overall (it_feedback (last recs r0)) - overall (it_feedback r0)
  end.

(** A session started on [s0] with budget [max_iterations]. *)
Definition run (max_iterations : nat) (s0 : Script) : Session :=
  let '(recs, out) := loop max_iterations 1 s0 in
  {| records := recs; outcome := out; improvement := improvement_of recs |}.

(** Consecutive records follow step 6: each script is [next_script] of
    the previous record's script and feedback. *)
Fixpoint chained (recs : list IterationRecord) : Prop :=
  match recs with
  | r1 :: ((r2 :: _) as tl) =>
      it_script r2 = next_script (it_script r1) (it_feedback r1) /\ chained tl
  | _ => True
  end.

End Loop.

Arguments it_index {Script Video} _.
Arguments it_script {Script Video} _.
Arguments it_video {Script Video} _.
Arguments it_feedback {Script Video} _.
Arguments records {Script Video} _.
Arguments outcome {Script Video} _.
Arguments improvement {Script Video} _.
Arguments next_script {Script} patch valid cur fb.
Arguments feedback_of {Video} score target v.
Arguments chained {Script} {Video} patch valid recs.
Arguments loop {Script Video} render score patch valid target remaining i cur.
Arguments run {Script Video} render score patch valid target max_iterations s0.

(** Scenario B of the spec: the overall score of the n-th rendered script
    (all five dimensions alike) is 6.5, 7.2, then 8.3; the patcher always
    returns a new, valid script. *)
Definition scenarioB_scores (n : nat) : list Q :=
  repeat (nth n [65 # 10; 72 # 10; 83 # 10] (83 # 10)) 5.

Definition scenarioB : Session nat nat :=
  run (fun s => s) scenarioB_scores (fun s _ => S s) (fun _ => true) (8 # 1) 5 0%nat.

End Improve.

(* ================================================================== *)
(** ** Decimal rendering of integers ([Number.prototype.toString]) *)
(* ================================================================== *)

Module JsDec.

(** Decimal digits of [n >= 0], most significant first; [fuel] bounds
    the number of digits. *)
Fixpoint dec_list (fuel : nat) (n : Z) : list Z :=
  match fuel with
  | O => [n mod 10]
  | S f => if n <? 10 then [n] else dec_list f (n / 10) ++ [n mod 10]
  end.

Definition digit_char (d : Z) : Ascii.ascii := Ascii.ascii_of_nat (48 + Z.to_nat d).

Fixpoint chars (l : list Z) (rest : string) : string :=
  match l with
  | [] => rest
  | d :: l' => String (digit_char d) (chars l' rest)
  end.

(** [String(n)] / template interpolation of an integer-valued number;
    [S (Z.log2 n)] bits are at least as many as the decimal digits. *)
Definition to_string (z : Z) : string :=
  if z <? 0 then String "-"%char (chars (dec_list (S (Z.to_nat (Z.log2 (- z)))) (- z)) "")
  else chars (dec_list (S (Z.to_nat (Z.log2 z))) z) "".

End JsDec.

(* ================================================================== *)
(** ** frontend/app/api/generate-script/route.ts : POST (mock) *)
(* ================================================================== *)

Module GenerateScript.

Record GenerateScriptResponse := mkGen {
  sessionId : string;
  script : string;
  gen_status : string
}.

(** The mock script; [nres] is [resources.length]. *)
Definition mockScript (prompt : string) (nres : Z) : string :=
  "# Educational Video Script

## Introduction
Welcome to this educational video on " ++ prompt ++ ".

## Main Content
In this video, we will explore the fundamental concepts and principles that make this topic fascinating.

### Key Points:
1. First important concept
2. Second important concept
3. Third important concept

## Visual Demonstrations
We'll use mathematical animations to illustrate these concepts clearly.

## Conclusion
Thank you for watching. We hope this video has enhanced your understanding.

---
Resources analyzed: " ++ JsDec.to_string nres ++ " file(s)
Generated with Manim and AI".

(** [POST(request)] at time [now]: [sessionId = `session_${Date.now()}`]
    (taken before the simulated delay). *)
Definition POST (now : Z) (prompt : string) (nres : Z) : GenerateScriptResponse :=
  {| sessionId := "session_" ++ JsDec.to_string now;
     script := mockScript prompt nres;
     gen_status := "success" |}.

End GenerateScript.

(* ================================================================== *)
(** ** server/mongodb.ts : getLatestPendingVideos, getVideoById and the
       routes that call them (src/unnamed/part_000, part_003) *)
(* ================================================================== *)

Module MongoRead.
Import Mongo.

(** Stable insertion into a list sorted by [createdAt], newest first:
    [d] goes before the first document that is not newer than it. *)
Fixpoint insert_desc (d : Doc) (l : list Doc) : list Doc :=
  match l with
  | [] => [d]
  | y :: ys => if d_createdAt y <=? d_createdAt d then d :: y :: ys
               else y :: insert_desc d ys
  end.

(** [.sort({ createdAt: -1 })]; documents with equal [createdAt] keep
    their insertion order. *)
Fixpoint sort_desc (l : list Doc) : list Doc :=
  match l with
  | [] => []
  | x :: xs => insert_desc x (sort_desc xs)
  end.

(** [.limit(n)]: 0 means no limit, a negative [n] limits to [-n]. *)
Definition apply_limit (n : Z) (l : list Doc) : list Doc :=
  if n =? 0 then l else firstn (Z.to_nat (Z.abs n)) l.

Definition is_pending (d : Doc) : bool := String.eqb (d_status d) "pending".

Inductive ListResult :=
| ListOk (data : list Doc)        (* [{success: true, data}]; each entry
                                     also gets [id: doc._id.toString()] *)
| ListErr (error : string).

(** [getLatestPendingVideos(limit)]; [find_ok] is whether the cursor
    ([find ... toArray()]) resolves: it rejects whenever the server cannot
    be reached, also over a cached connection. The [map] then calls
    [doc._id.toString()] on each document. *)
Definition getLatestPendingVideos (env : Env) (find_ok : bool) (limit : Z) (st : DbState)
    : ListResult * DbState :=
  match connectToDb env st with
  | None => (ListErr "Failed to connect to the database.", st)
  | Some st1 =>
      if find_ok then
        let ds := apply_limit limit (sort_desc (filter is_pending (docs st1))) in
        if existsb (fun d => id_str_throws (d_id d)) ds
        then (ListErr "Failed to fetch pending videos.", st1)
        else (ListOk ds, st1)
      else (ListErr "Failed to fetch pending videos.", st1)
  end.

Record ListResponse := mkList {
  list_http : Z;
  list_success : bool;
  list_data : option (list Doc);
  list_error : option string
}.

(** [GET()] of the queued-prompts route. *)
Definition GET_pending (env : Env) (find_ok : bool) (st : DbState) : ListResponse * DbState :=
  let '(r, st') := getLatestPendingVideos env find_ok 10 st in
  match r with
  | ListOk d => ({| list_http := 200; list_success := true; list_data := Some d; list_error := None |}, st')
  | ListErr e => ({| list_http := 500; list_success := false; list_data := None; list_error := Some e |}, st')
  end.

(** A document of the [videos] collection whose [_id] is an ObjectId
    (no other [_id] can match [{_id: objectId}]): the [_id] as a lower-case
    24-digit hex string, and its fields. *)
Record VideoDoc := mkVideo { v_id : string; v_fields : list (string * Api.json) }.

Definition is_hex (c : Ascii.ascii) : bool :=
  let n := Ascii.nat_of_ascii c in
  ((48 <=? n) && (n <=? 57) || (97 <=? n) && (n <=? 102) || (65 <=? n) && (n <=? 70))%nat.

Definition lower (c : Ascii.ascii) : Ascii.ascii :=
  let n := Ascii.nat_of_ascii c in
  if ((65 <=? n) && (n <=? 90))%nat then Ascii.ascii_of_nat (n + 32) else c.

Fixpoint all_hex (s : string) : bool :=
  match s with EmptyString => true | String c r => is_hex c && all_hex r end.

Fixpoint lower_string (s : string) : string :=
  match s with EmptyString => EmptyString | String c r => String (lower c) (lower_string r) end.

(** [new ObjectId(id)] for a string (bson 6): accepted exactly when it is
    24 hexadecimal digits, otherwise it throws. *)
Definition valid_object_id (s : string) : bool :=
  Nat.eqb (String.length s) 24 && all_hex s.

(** What [getVideoById] resolves to, or its rejection. *)
Inductive VideoResult :=
| VRObj (fields : list (string * Api.json))   (* an object value *)
| VRNull                                      (* [null] *)
| VRThrow.                                    (* the rethrown error *)

Fixpoint find_video (key : string) (vs : list VideoDoc) : option VideoDoc :=
  match vs with
  | [] => None
  | v :: vs' => if String.eqb (v_id v) key then Some v else find_video key vs'
  end.

(** [getVideoById(id)] over the [videos] collection [vs]; [find_ok] is
    whether [findOne] resolves (it rejects whenever the server cannot be
    reached, also over a cached connection). A connection failure is returned as an
    object, not thrown. *)
Definition getVideoById (env : Env) (find_ok : bool) (vs : list VideoDoc) (id0 : string)
    (st : DbState) : VideoResult * DbState :=
  match connectToDb env st with
  | None => (VRObj [("success", Api.JBool false);
                    ("error", Api.JStr "Failed to connect to the database.")], st)
  | Some st1 =>
      if negb (valid_object_id id0) then (VRThrow, st1)
      else if negb find_ok then (VRThrow, st1)
      else match find_video (lower_string id0) vs with
           | None => (VRNull, st1)
           | Some v => (VRObj (v_fields v ++ [("id", Api.JStr (v_id v))]), st1)
           end
  end.

(** [GET(req, {params})] of the video route: HTTP status and JSON body. *)
Definition GET_video (env : Env) (find_ok : bool) (vs : list VideoDoc) (id0 : string)
    (st : DbState) : (Z * Api.json) * DbState :=
  let '(r, st') := getVideoById env find_ok vs id0 st in
  match r with
  | VRThrow => ((500, Api.JObj [("error", Api.JStr "Internal Server Error")]), st')
  | VRNull => ((404, Api.JObj [("error", Api.JStr "Video not found")]), st')
  | VRObj kv => ((200, Api.JObj kv), st')
  end.

(** [fetch] of a route response: [response.ok] is a 2xx status. *)
Definition as_fetch (r : Z * Api.json) : Api.FetchResponse :=
  {| Api.ok := (200 <=? fst r) && (fst r <? 300); Api.body := snd r |}.

End MongoRead.

(* ================================================================== *)
(** * Properties of the queue store *)
(* ================================================================== *)

Module StoreFacts.
Import Store.

(** The item at position [n] after an update: matched on [id], it keeps
    [id], [prompt], [videoId] and [createdAt] and takes the four supplied
    fields; otherwise it is untouched. *)
Lemma update_nth (id0 : Z) (st : QueueStatus) (pr : option float)
    (msg url : option string) (q : list QueueItem) (n : nat) (it : QueueItem) :
  nth_error q n = Some it ->
  exists it',
    nth_error (updateQueueItemStatus id0 st pr msg url q) n = Some it' /\
    (id it <> id0 -> it' = it) /\
    (id it = id0 ->
       id it' = id it /\ prompt it' = prompt it /\ videoId it' = videoId it /\
       createdAt it' = createdAt it /\
       status it' = st /\ progress it' = pr /\ message it' = msg /\ videoUrl it' = url).
Proof.
  intros Hn. unfold updateQueueItemStatus.
  rewrite nth_error_map, Hn. simpl.
  eexists; split; [reflexivity|].
  destruct (Z.eqb_spec (id it) id0) as [E|E].
  - split; [intro C; contradiction|]. intros _; simpl; repeat split.
  - split; [reflexivity|]. intro C; contradiction.
Qed.

Lemma update_length (id0 : Z) (st : QueueStatus) (pr : option float)
    (msg url : option string) (q : list QueueItem) :
  List.length (updateQueueItemStatus id0 st pr msg url q) = List.length q.
Proof. unfold updateQueueItemStatus. apply length_map. Qed.

End StoreFacts.

(** C1 (counterexample): the store does not order statuses. Updating a
    [complete] item to [queued] stores [queued]: the status goes back to an
    earlier state and leaves a terminal one. *)
Lemma C1_status_regresses :
  map Store.status
      (Store.updateQueueItemStatus 1 Store.Queued None None None [Store.finished_item])
    = [Store.Queued] /\
  Store.is_terminal (Store.status Store.finished_item) = true /\
  (Store.status_rank Store.Queued < Store.status_rank (Store.status Store.finished_item))%nat.
Proof. split; [reflexivity | split; [reflexivity | simpl; lia]]. Qed.

(** C1 (amended): [updateQueueItemStatus] overwrites the status of every
    item whose id matches with the supplied status, whatever the previous
    status was (no compare-and-set), and leaves the other statuses alone. *)
Theorem C1_update_overwrites_status (id0 : Z) (st : Store.QueueStatus)
    (pr : option float) (msg url : option string) (q : list Store.QueueItem) :
  map Store.status (Store.updateQueueItemStatus id0 st pr msg url q) =
  map (fun it => if Z.eqb (Store.id it) id0 then st else Store.status it) q.
Proof.
  unfold Store.updateQueueItemStatus. rewrite map_map.
  apply map_ext. intros it. destruct (Z.eqb (Store.id it) id0); reflexivity.
Qed.

(** C10: [updateQueueItemStatus] keeps the length of the queue; an item
    with a different id is unchanged; the matched item keeps [id],
    [prompt], [videoId] and [createdAt] and gets exactly the supplied
    [status], [progress], [message] and [videoUrl] (so an omitted optional
    argument, [None], erases the stored value). *)
Theorem C10_update_frame (id0 : Z) (st : Store.QueueStatus)
    (pr : option float) (msg url : option string) (q : list Store.QueueItem) :
  List.length (Store.updateQueueItemStatus id0 st pr msg url q) = List.length q /\
  forall n it, nth_error q n = Some it ->
  exists it',
    nth_error (Store.updateQueueItemStatus id0 st pr msg url q) n = Some it' /\
    (Store.id it <> id0 -> it' = it) /\
    (Store.id it = id0 ->
       Store.id it' = Store.id it /\ Store.prompt it' = Store.prompt it /\
       Store.videoId it' = Store.videoId it /\ Store.createdAt it' = Store.createdAt it /\
       Store.status it' = st /\ Store.progress it' = pr /\
       Store.message it' = msg /\ Store.videoUrl it' = url).
Proof.
  split; [apply StoreFacts.update_length|].
  intros n it Hn. apply StoreFacts.update_nth; exact Hn.
Qed.

(* ================================================================== *)
(** * Properties of the status route and of getQueueStatus *)
(* ================================================================== *)

Module StatusFacts.
Import VideoStatus.

(** The only two shapes of a [GET] response. *)
Lemma GET_cases (sid : string) (now : Z) :
  (GET sid now = {| vs_status := "completed"; vs_progress := None;
                    vs_message := Some "Video generated successfully";
                    vs_videoUrl := Some mock_video_url; vs_error := None |}) \/
  (exists p, GET sid now = {| vs_status := "generating"; vs_progress := Some p;
                              vs_message := Some "Generating Manim animation...";
                              vs_videoUrl := None; vs_error := None |}).
Proof.
  unfold GET, response_for_elapsed.
  destruct (PrimFloat.ltb _ _); [right; eexists; reflexivity | left; reflexivity].
Qed.

(** Every integer elapsed time of [0 .. 9999] ms, checked by evaluation of
    the double arithmetic. *)
Lemma progress_ok_all : forallb (fun k => progress_ok (Z.of_nat k)) (seq 0 (Z.to_nat 10000)) = true.
Proof. vm_compute. reflexivity. Qed.

Lemma progress_ok_range (e : Z) : 0 <= e < 10000 -> progress_ok e = true.
Proof.
  intros He.
  pose proof progress_ok_all as H. rewrite forallb_forall in H.
  rewrite <- (Z2Nat.id e) by lia. apply H.
  apply in_seq. split; [lia|].
  rewrite Nat.add_0_l. apply Z2Nat.inj_lt; lia.
Qed.

End StatusFacts.

(** C2 (counterexample): with no job state changing, two queries of the
    same session at different times answer differently (generating at
    5 s, completed at 20 s). *)
Lemma C2_queries_differ :
  VideoStatus.vs_status (VideoStatus.GET "session_0" 5000) = "generating" /\
  VideoStatus.vs_status (VideoStatus.GET "session_0" 20000) = "completed" /\
  VideoStatus.GET "session_0" 5000 <> VideoStatus.GET "session_0" 20000.
Proof.
  split; [vm_compute; reflexivity|]. split; [vm_compute; reflexivity|].
  intro H. apply (f_equal VideoStatus.vs_status) in H. vm_compute in H. discriminate H.
Qed.

(** C2 (amended): the response depends only on the session id and the
    time of the query; two queries that both find the session completed
    return identical responses. *)
Theorem C2_completed_queries_identical (sid : string) (t1 t2 : Z) :
  VideoStatus.vs_status (VideoStatus.GET sid t1) = "completed" ->
  VideoStatus.vs_status (VideoStatus.GET sid t2) = "completed" ->
  VideoStatus.GET sid t1 = VideoStatus.GET sid t2.
Proof.
  intros H1 H2.
  destruct (StatusFacts.GET_cases sid t1) as [E1 | [p1 E1]];
  destruct (StatusFacts.GET_cases sid t2) as [E2 | [p2 E2]];
  rewrite E1, E2 in *; simpl in *; try discriminate; reflexivity.
Qed.

Lemma C2_completed_queries_identical_witness :
  VideoStatus.vs_status (VideoStatus.GET "session_0" 20000) = "completed" /\
  VideoStatus.vs_status (VideoStatus.GET "session_0" 30000) = "completed" /\
  VideoStatus.GET "session_0" 20000 = VideoStatus.GET "session_0" 30000.
Proof.
  split; [vm_compute; reflexivity|]. split; [vm_compute; reflexivity|].
  apply C2_completed_queries_identical; vm_compute; reflexivity.
Defined.

(** C3 (counterexample): a completed response has no progress, and the
    polling client [getQueueStatus] hands back the bare status value of
    the record it fetches, not the record. *)
Lemma C3_bare_status :
  VideoStatus.vs_progress (VideoStatus.GET "session_0" 20000) = None /\
  Api.getQueueStatus (Api.mkFetch true (Api.json_of_response (VideoStatus.GET "session_0" 5000)))
    = Api.Ok (Some (Api.JStr "generating")).
Proof. split; vm_compute; reflexivity. Qed.

(** C3 (amended): every response of the route carries a status and a
    message; it carries a progress exactly when it is generating;
    [getQueueStatus] returns only the [status] field of the JSON object it
    receives, here the status of the route's response. *)
Theorem C3_response_shape (sid : string) (now : Z) :
  VideoStatus.vs_message (VideoStatus.GET sid now) <> None /\
  (VideoStatus.vs_progress (VideoStatus.GET sid now) <> None <->
   VideoStatus.vs_status (VideoStatus.GET sid now) = "generating") /\
  (forall kv, Api.getQueueStatus (Api.mkFetch true (Api.JObj kv)) = Api.Ok (Api.lookup "status" kv)) /\
  Api.getQueueStatus (Api.mkFetch true (Api.json_of_response (VideoStatus.GET sid now)))
    = Api.Ok (Some (Api.JStr (VideoStatus.vs_status (VideoStatus.GET sid now)))).
Proof.
  destruct (StatusFacts.GET_cases sid now) as [E | [p E]]; rewrite E; simpl.
  - split; [discriminate|]. split; [split; [intro C; contradiction C; reflexivity | discriminate]|].
    split; [reflexivity|]. reflexivity.
  - split; [discriminate|]. split; [split; [reflexivity | discriminate]|].
    split; [reflexivity|].
    unfold Api.json_of_response; simpl. reflexivity.
Qed.

(** C5: a response of the route has a video URL if and only if its status
    is [completed]; the error response of the [catch] block has none. *)
Theorem C5_video_url_iff_completed (sid : string) (now : Z) :
  (VideoStatus.vs_videoUrl (VideoStatus.GET sid now) <> None <->
   VideoStatus.vs_status (VideoStatus.GET sid now) = "completed") /\
  VideoStatus.vs_videoUrl VideoStatus.GET_error_response = None.
Proof.
  split; [|reflexivity].
  destruct (StatusFacts.GET_cases sid now) as [E | [p E]]; rewrite E; simpl;
    split; intro H; try discriminate; try reflexivity.
  contradiction H; reflexivity.
Qed.

(** C8 (counterexample): [updateQueueItemStatus] stores the progress it
    is given; a progress of 150 is stored as it is. *)
Lemma C8_progress_unchecked :
  map Store.progress
      (Store.updateQueueItemStatus 1 Store.Rendering (Some 150%float) None None
         [Store.finished_item])
    = [Some 150%float] /\
  PrimFloat.ltb 100 150 = true.
Proof. split; vm_compute; reflexivity. Qed.

(** C8 (amended): a new queue item starts with progress 0; an update
    stores the supplied progress of the matched item unchecked; a
    generating response of the status route reports a progress in
    [0, 99] whenever the elapsed time since the session timestamp is an
    integer number of milliseconds in [0, 10000). *)
Theorem C8_progress_sources (t_id t_created : Z) (pr : string) (vid : option string)
    (q : list Store.QueueItem) (sid : string) (tnow e : Z) :
  PrimFloat.sub (JsNum.of_Z tnow) (VideoStatus.sessionTimestamp sid) = JsNum.of_Z e ->
  0 <= e < 10000 ->
  (exists it, nth_error (Store.addToQueue t_id t_created pr vid q) (List.length q) = Some it /\
              Store.progress it = Some 0%float) /\
  (forall id0 st p m u n it,
     nth_error q n = Some it -> Store.id it = id0 ->
     exists it', nth_error (Store.updateQueueItemStatus id0 st p m u q) n = Some it' /\
                 Store.progress it' = p) /\
  (exists x, VideoStatus.vs_progress (VideoStatus.GET sid tnow) = Some x /\
             (PrimFloat.leb 0 x && PrimFloat.leb x 99)%bool = true).
Proof.
  intros Hel Hr. split; [|split].
  - unfold Store.addToQueue. rewrite nth_error_app2 by lia.
    rewrite Nat.sub_diag. eexists; split; reflexivity.
  - intros id0 st p m u n it Hn Hid.
    destruct (StoreFacts.update_nth id0 st p m u q n it Hn) as (it' & E & _ & H).
    exists it'. split; [exact E|]. apply H; exact Hid.
  - pose proof (StatusFacts.progress_ok_range e Hr) as P.
    unfold VideoStatus.progress_ok in P. unfold VideoStatus.GET. rewrite Hel.
    destruct (VideoStatus.vs_progress _) as [x|]; [|discriminate].
    exists x; split; [reflexivity | exact P].
Qed.

Lemma C8_progress_sources_witness :
  PrimFloat.sub (JsNum.of_Z 3900) (VideoStatus.sessionTimestamp "session_1000") = JsNum.of_Z 2900 /\
  VideoStatus.vs_progress (VideoStatus.GET "session_1000" 3900) = Some 28%float /\
  exists x, VideoStatus.vs_progress (VideoStatus.GET "session_1000" 3900) = Some x /\
            (PrimFloat.leb 0 x && PrimFloat.leb x 99)%bool = true.
Proof.
  split; [vm_compute; reflexivity|]. split; [vm_compute; reflexivity|].
  destruct (C8_progress_sources 0 0 "p" None [] "session_1000" 3900 2900) as (_ & _ & H);
    [vm_compute; reflexivity | lia | exact H].
Defined.

(* ================================================================== *)
(** * Properties of prompt submission *)
(* ================================================================== *)

(** C4 (counterexample): a successful submission stores the prompt with
    status [pending], not [queued], and the route answers
    [{success: true, insertedId}] with no status. *)
Lemma C4_submit_pending_no_status :
  Mongo.POST (Mongo.mkEnv true true (Some "http://backend") true 7)
             (Mongo.Json (Api.JObj [("userid", Api.JStr "u1"); ("prompt", Api.JStr "a circle")]))
             (Mongo.mkDb false [] 0)
  = ({| Mongo.http_status := 200; Mongo.success := true;
        Mongo.insertedId := Some (Mongo.Generated 0); Mongo.error := None |},
     Mongo.mkDb true [Mongo.mkDoc (Mongo.Generated 0)
                        [("userid", Api.JStr "u1"); ("prompt", Api.JStr "a circle")]
                        "pending" 7] 1) /\
  "pending" <> "queued".
Proof. split; [reflexivity | discriminate]. Qed.

(** C4 (amended): for a request body that is a JSON object with truthy
    [userid] and [prompt], no non-null [_id], and a [prompt] whose string
    conversion does not throw (a string, for instance), when the database
    is connected or a connection succeeds, [insertOne] resolves,
    [BACKEND_API_URL] is non-empty and the backend [fetch] resolves, the
    route appends one document, the body's fields with status [pending]
    and [createdAt], under a freshly generated id, and answers 200 with
    [{success: true, insertedId}] and no status. *)
Theorem C4_submit_success (env : Mongo.Env) (kv : list (string * Api.json)) (st : Mongo.DbState) :
  Mongo.truthy (Api.lookup "userid" kv) = true ->
  Mongo.truthy (Api.lookup "prompt" kv) = true ->
  (forall p, Api.lookup "prompt" kv = Some p -> Mongo.str_throws p = false) ->
  Mongo.supplied_id kv = None ->
  (Mongo.cached st = true \/ Mongo.connect_ok env = true) ->
  Mongo.insert_ok env = true ->
  Mongo.truthy_str (Mongo.backend_url env) = true ->
  Mongo.fetch_resolves env = true ->
  Mongo.POST env (Mongo.Json (Api.JObj kv)) st =
  ({| Mongo.http_status := 200; Mongo.success := true;
      Mongo.insertedId := Some (Mongo.Generated (Mongo.next_id st)); Mongo.error := None |},
   Mongo.mkDb true
     (Mongo.docs st ++ [Mongo.mkDoc (Mongo.Generated (Mongo.next_id st)) kv "pending"
                          (Mongo.clock env)])
     (Mongo.next_id st + 1)).
Proof.
  intros Hu Hp Hs Hid Hc Hi Hb Hf.
  assert (Hps : match Api.lookup "prompt" kv with
                | Some p => Mongo.str_throws p | None => false end = false)
    by (destruct (Api.lookup "prompt" kv) as [p|]; [apply Hs; reflexivity | reflexivity]).
  unfold Mongo.POST, Mongo.createVideoPrompt, Mongo.connectToDb.
  rewrite Hu, Hp, Hid, Hi, Hb, Hps, Hf; simpl.
  destruct st as [c ds n]; simpl in *.
  destruct c; [reflexivity|].
  destruct Hc as [Hc|Hc]; [discriminate | rewrite Hc; reflexivity].
Qed.

Lemma C4_submit_success_witness :
  Mongo.POST (Mongo.mkEnv true true (Some "http://backend") true 7)
             (Mongo.Json (Api.JObj [("userid", Api.JStr "u1"); ("prompt", Api.JStr "a circle");
                                    ("style", Api.JStr "3b1b")]))
             (Mongo.mkDb true [] 4)
  = ({| Mongo.http_status := 200; Mongo.success := true;
        Mongo.insertedId := Some (Mongo.Generated 4); Mongo.error := None |},
     Mongo.mkDb true [Mongo.mkDoc (Mongo.Generated 4)
                        [("userid", Api.JStr "u1"); ("prompt", Api.JStr "a circle");
                         ("style", Api.JStr "3b1b")] "pending" 7] 5).
Proof.
  apply (C4_submit_success (Mongo.mkEnv true true (Some "http://backend") true 7)
           [("userid", Api.JStr "u1"); ("prompt", Api.JStr "a circle");
            ("style", Api.JStr "3b1b")] (Mongo.mkDb true [] 4));
    try reflexivity.
  - intros p Hp. simpl in Hp. injection Hp as <-. reflexivity.
  - left; reflexivity.
Defined.

(** C9: when [userid] or [prompt] is missing or empty, [createVideoPrompt]
    answers [{success: false, error: 'User ID and prompt are required.'}]
    and leaves the state as it was (no connection is opened or cached, no
    document is inserted), and the route answers 400 with the state
    unchanged, so [createVideoPrompt] is not reached. *)
Theorem C9_validation_rejects (env : Mongo.Env) (kv : list (string * Api.json)) (st : Mongo.DbState) :
  Mongo.truthy (Api.lookup "userid" kv) = false \/ Mongo.truthy (Api.lookup "prompt" kv) = false ->
  Mongo.createVideoPrompt env kv st = (Mongo.CreateErr "User ID and prompt are required.", st) /\
  Mongo.POST env (Mongo.Json (Api.JObj kv)) st =
  ({| Mongo.http_status := 400; Mongo.success := false; Mongo.insertedId := None;
      Mongo.error := Some "Missing userid or prompt" |}, st).
Proof.
  intros H.
  assert (E : (negb (Mongo.truthy (Api.lookup "userid" kv))
               || negb (Mongo.truthy (Api.lookup "prompt" kv)))%bool = true)
    by (destruct H as [H|H]; rewrite H; [reflexivity | apply orb_true_r]).
  unfold Mongo.createVideoPrompt, Mongo.POST. rewrite E. split; reflexivity.
Qed.

Lemma C9_validation_rejects_witness :
  Mongo.POST (Mongo.mkEnv true true (Some "http://backend") true 7)
             (Mongo.Json (Api.JObj [("userid", Api.JStr ""); ("prompt", Api.JStr "a circle")]))
             (Mongo.mkDb false [] 0)
  = ({| Mongo.http_status := 400; Mongo.success := false; Mongo.insertedId := None;
        Mongo.error := Some "Missing userid or prompt" |}, Mongo.mkDb false [] 0).
Proof.
  apply (C9_validation_rejects (Mongo.mkEnv true true (Some "http://backend") true 7)
           [("userid", Api.JStr ""); ("prompt", Api.JStr "a circle")] (Mongo.mkDb false [] 0)).
  left; reflexivity.
Defined.

(* ================================================================== *)
(** * Properties of the Improvement Loop *)
(* ================================================================== *)

Module ImproveFacts.
Import Improve.

Section Props.

Variables (Script Video : Type) (render : Script -> Video) (score : Video -> list Q)
  (patch : Script -> Feedback -> Script) (valid : Script -> bool) (target : Q).

(** What one run of [loop] from iteration [i] on script [cur] produces:
    at most [rem] records, a [satisfied] or [exhausted] outcome, records
    chained by step 6, indices [i, i+1, ...], and a first record on [cur]. *)
Lemma loop_props (rem : nat) : forall (i : nat) (cur : Script),
  let res := loop render score patch valid target rem i cur in
  (List.length (fst res) <= rem)%nat /\
  (snd res = OSatisfied \/ snd res = OExhausted) /\
  chained patch valid (fst res) /\
  map it_index (fst res) = seq i (List.length (fst res)) /\
  match fst res with r :: _ => it_script r = cur | [] => True end.
Proof.
  induction rem as [|r IH]; intros i cur; simpl.
  - split; [lia|]. split; [right; reflexivity|]. repeat split.
  - destruct (Qle_bool target (mean (score (render cur)))) eqn:Hs.
    + simpl. split; [lia|]. split; [left; reflexivity|]. repeat split.
    + destruct r as [|r'].
      * simpl. split; [lia|]. split; [right; reflexivity|]. repeat split.
      * specialize (IH (S i) (next_script patch valid cur (feedback_of score target (render cur)))).
        cbv zeta in IH.
        destruct (loop render score patch valid target (S r') (S i)
                    (next_script patch valid cur (feedback_of score target (render cur))))
          as [rest out].
        simpl in IH |- *. destruct IH as (Hl & Ho & Hc & Hidx & Hhd).
        split; [lia|]. split; [exact Ho|]. split.
        -- destruct rest as [|r2 rest']; [exact I|]. split; [exact Hhd | exact Hc].
        -- split; [rewrite Hidx; reflexivity | reflexivity].
Qed.

End Props.

End ImproveFacts.

(** C6: for every budget [M], every script and all collaborators, the
    session holds at most [M] iteration records (one render and one
    scoring per record), its outcome is [satisfied] or [exhausted], its
    records are numbered 1, 2, ... and each record's script is the
    patched candidate of the previous one when that candidate is valid,
    and the previous script otherwise. *)
Theorem C6_loop_bounded (Script Video : Type) (render : Script -> Video)
    (score : Video -> list Q) (patch : Script -> Improve.Feedback -> Script)
    (valid : Script -> bool) (target : Q) (M : nat) (s0 : Script) :
  let sess := Improve.run render score patch valid target M s0 in
  (List.length (Improve.records sess) <= M)%nat /\
  (Improve.outcome sess = Improve.OSatisfied \/ Improve.outcome sess = Improve.OExhausted) /\
  Improve.chained patch valid (Improve.records sess) /\
  map Improve.it_index (Improve.records sess) = seq 1 (List.length (Improve.records sess)).
Proof.
  unfold Improve.run.
  pose proof (ImproveFacts.loop_props Script Video render score patch valid target M 1 s0) as H.
  simpl in H.
  destruct (Improve.loop render score patch valid target M 1 s0) as [recs out].
  simpl in *. destruct H as (Hl & Ho & Hc & Hidx & _). tauto.
Qed.

(** C7: in scenario B (overall scores 6.5, 7.2, 8.3, target 8.0, budget 5)
    the session has exactly three records, only the third is satisfied,
    the outcome is [satisfied], and the reported improvement is
    8.3 - 6.5 = 1.8. *)
Theorem C7_scenarioB :
  List.length (Improve.records Improve.scenarioB) = 3%nat /\
  map (fun r => Improve.satisfied (Improve.it_feedback r)) (Improve.records Improve.scenarioB)
    = [false; false; true] /\
  Forall2 Qeq (map (fun r => Improve.overall (Improve.it_feedback r))
                   (Improve.records Improve.scenarioB))
          [65 # 10; 72 # 10; 83 # 10] /\
  Improve.outcome Improve.scenarioB = Improve.OSatisfied /\
  Qeq (Improve.improvement Improve.scenarioB) (Qminus (83 # 10) (65 # 10)) /\
  Qeq (Improve.improvement Improve.scenarioB) (18 # 10).
Proof.
  split; [vm_compute; reflexivity|].
  split; [vm_compute; reflexivity|].
  split; [vm_compute; repeat constructor|].
  split; [vm_compute; reflexivity|].
  split; unfold Qeq; vm_compute; reflexivity.
Qed.

(* ================================================================== *)
(** * Further properties of the queue store *)
(* ================================================================== *)

Module StoreMore.
Import Store.

(** Updating an id that no item carries (for instance an item removed
    meanwhile) leaves the queue as it is. *)
Theorem update_absent (id0 : Z) (st : QueueStatus) (pr : option float)
    (msg url : option string) (q : list QueueItem) :
  (forall it, In it q -> id it <> id0) ->
  updateQueueItemStatus id0 st pr msg url q = q.
Proof.
  induction q as [|it q IH]; intros H; [reflexivity|].
  unfold updateQueueItemStatus in *; simpl.
  destruct (Z.eqb_spec (id it) id0) as [E|E].
  - exfalso. apply (H it); [left; reflexivity | exact E].
  - f_equal. apply IH. intros x Hx. apply H. right; exact Hx.
Qed.

Lemma update_absent_witness :
  updateQueueItemStatus 2 Error None None None [finished_item] = [finished_item].
Proof.
  apply update_absent. intros it [<-|[]]. simpl. discriminate.
Defined.

(** Two updates of the same id: the second one wins entirely. *)
Theorem update_update (id0 : Z) (s1 s2 : QueueStatus) (p1 p2 : option float)
    (m1 m2 u1 u2 : option string) (q : list QueueItem) :
  updateQueueItemStatus id0 s2 p2 m2 u2 (updateQueueItemStatus id0 s1 p1 m1 u1 q) =
  updateQueueItemStatus id0 s2 p2 m2 u2 q.
Proof.
  unfold updateQueueItemStatus. rewrite map_map. apply map_ext. intros it.
  destruct (Z.eqb (id it) id0) eqn:E; simpl; rewrite ?E; reflexivity.
Qed.

(** Adding an item and removing it by its fresh id gives the queue back. *)
Theorem add_remove (now created : Z) (p : string) (v : option string) (q : list QueueItem) :
  (forall it, In it q -> id it <> now) ->
  removeFromQueue now (addToQueue now created p v q) = q.
Proof.
  intros H. unfold removeFromQueue, addToQueue. rewrite filter_app. simpl.
  rewrite Z.eqb_refl, app_nil_r.
  induction q as [|it q IH]; [reflexivity|]. simpl.
  destruct (Z.eqb_spec (id it) now) as [E|E].
  - exfalso. apply (H it); [left; reflexivity | exact E].
  - simpl. f_equal. apply IH. intros x Hx. apply H. right; exact Hx.
Qed.

Lemma add_remove_witness :
  removeFromQueue 5 (addToQueue 5 6 "p" None [finished_item]) = [finished_item].
Proof.
  apply add_remove. intros it [<-|[]]. simpl. discriminate.
Defined.

(** Two prompts added while [Date.now()] returns the same millisecond for
    their [id] get the same id: a later
    status update changes both, and removing that id removes both. *)
Theorem same_ms_items_share_id (now c1 c2 : Z) (p1 p2 : string) (v1 v2 : option string)
    (st : QueueStatus) (pr : option float) (msg url : option string) (q : list QueueItem) :
  let q2 := addToQueue now c2 p2 v2 (addToQueue now c1 p1 v1 q) in
  skipn (List.length q) (map status (updateQueueItemStatus now st pr msg url q2)) = [st; st] /\
  removeFromQueue now q2 = removeFromQueue now q.
Proof.
  cbv zeta. unfold addToQueue. rewrite <- app_assoc. simpl. split.
  - unfold updateQueueItemStatus. rewrite map_app, map_app. simpl.
    rewrite Z.eqb_refl. simpl.
    rewrite skipn_app, skipn_all2 by (rewrite !length_map; lia).
    rewrite !length_map, Nat.sub_diag. reflexivity.
  - unfold removeFromQueue. rewrite filter_app. simpl. rewrite Z.eqb_refl. simpl.
    apply app_nil_r.
Qed.

End StoreMore.

(* ================================================================== *)
(** * Properties of the prompt collection and its routes *)
(* ================================================================== *)

Module MongoFacts.
Import Mongo MongoRead.

(** Newest first: [a] may precede [b]. *)
Definition newer_eq (a b : Doc) : Prop := d_createdAt b <= d_createdAt a.

(** The [_id] of the document [createVideoPrompt] inserts for the body
    [kv] in state [st], and the driver's next ObjectId after it. *)
Definition new_id (kv : list (string * Api.json)) (st : DbState) : DocId :=
  match supplied_id kv with Some v => Supplied v | None => Generated (next_id st) end.

Definition new_next (kv : list (string * Api.json)) (st : DbState) : Z :=
  match supplied_id kv with Some _ => next_id st | None => next_id st + 1 end.

(** The document itself, and the state once it is inserted. *)
Definition new_doc (env : Env) (kv : list (string * Api.json)) (st : DbState) : Doc :=
  mkDoc (new_id kv st) kv "pending" (clock env).

Definition after_insert (env : Env) (kv : list (string * Api.json)) (st : DbState) : DbState :=
  {| cached := true; docs := (docs st ++ [new_doc env kv st])%list; next_id := new_next kv st |}.

(** What [createVideoPrompt] resolves to after a successful [insertOne]. *)
Definition create_tail (env : Env) (kv : list (string * Api.json)) (st : DbState) : CreateResult :=
  if id_str_throws (new_id kv st) then CreateErr "Failed to create the document."
  else if negb (truthy_str (backend_url env)) then
    CreateErr "BACKEND_API_URL environment variable not defined"
  else if match Api.lookup "prompt" kv with Some p => str_throws p | None => false end then
    CreateErr "Failed to create the document."
  else if fetch_resolves env then CreateOk (new_id kv st)
  else CreateErr "Failed to create the document.".

(** A sample state: three prompts, one of them no longer pending, and a
    connection already cached. *)
Definition sample_env : Env := mkEnv true true (Some "http://backend") true 30.

Definition sample_doc0 : Doc :=
  mkDoc (Generated 0) [("userid", Api.JStr "u1"); ("prompt", Api.JStr "sine waves")] "pending" 10.
Definition sample_doc1 : Doc :=
  mkDoc (Generated 1) [("userid", Api.JStr "u2"); ("prompt", Api.JStr "fourier series")] "done" 20.
Definition sample_doc2 : Doc :=
  mkDoc (Generated 2) [("userid", Api.JStr "u1"); ("prompt", Api.JStr "limits")] "pending" 25.

Definition sample_db : DbState := mkDb true [sample_doc0; sample_doc1; sample_doc2] 3.

Definition sample_kv : list (string * Api.json) :=
  [("userid", Api.JStr "u3"); ("prompt", Api.JStr "eigenvectors")].

Definition sample_oid : string := "65a1f0c2b3d4e5f60718293a".

Definition sample_videos : list VideoDoc :=
  [mkVideo sample_oid [("_id", Api.JStr sample_oid); ("status", Api.JStr "completed")]].

Lemma insert_desc_perm (d : Doc) (l : list Doc) : Permutation (insert_desc d l) (d :: l).
Proof.
  induction l as [|y ys IH]; simpl; [reflexivity|].
  destruct (d_createdAt y <=? d_createdAt d); [reflexivity|].
  rewrite IH. apply perm_swap.
Qed.

Lemma sort_desc_perm (l : list Doc) : Permutation (sort_desc l) l.
Proof.
  induction l as [|x xs IH]; simpl; [reflexivity|].
  rewrite insert_desc_perm, IH. reflexivity.
Qed.

Lemma insert_desc_sorted (d : Doc) (l : list Doc) :
  Sorted newer_eq l -> Sorted newer_eq (insert_desc d l).
Proof.
  induction l as [|y ys IH]; intros Hs; simpl.
  - repeat constructor.
  - destruct (Z.leb_spec (d_createdAt y) (d_createdAt d)) as [Hle|Hgt].
    + constructor; [exact Hs | constructor; exact Hle].
    + inversion Hs as [|? ? Hys Hhd]; subst.
      constructor; [apply IH; exact Hys|].
      destruct ys as [|z zs]; simpl.
      * constructor. unfold newer_eq. lia.
      * destruct (d_createdAt z <=? d_createdAt d); constructor; unfold newer_eq.
        -- lia.
        -- inversion Hhd; assumption.
Qed.

Lemma sort_desc_sorted (l : list Doc) : Sorted newer_eq (sort_desc l).
Proof.
  induction l as [|x xs IH]; simpl; [constructor|].
  apply insert_desc_sorted, IH.
Qed.

Lemma firstn_sorted (n : nat) (l : list Doc) :
  Sorted newer_eq l -> Sorted newer_eq (firstn n l).
Proof.
  revert l. induction n as [|n IH]; intros l Hs; [constructor|].
  destruct l as [|a l]; [constructor|]. simpl.
  inversion Hs as [|? ? Hl Hhd]; subst.
  constructor; [apply IH, Hl|].
  destruct n, l; simpl; constructor. inversion Hhd; assumption.
Qed.

Lemma connect_docs (env : Env) (st st1 : DbState) :
  connectToDb env st = Some st1 ->
  docs st1 = docs st /\ next_id st1 = next_id st /\ cached st1 = true.
Proof.
  unfold connectToDb. destruct (cached st) eqn:C.
  - intros H; inversion H; subst; auto.
  - destruct (connect_ok env); intros H; inversion H; subst; simpl; auto.
Qed.

(** The listing the queued-prompts route answers with. *)
Lemma GET_pending_data (env : Env) (find_ok : bool) (st : DbState) (ds : list Doc) :
  list_data (fst (GET_pending env find_ok st)) = Some ds ->
  ds = firstn 10 (sort_desc (filter is_pending (docs st))).
Proof.
  unfold GET_pending, getLatestPendingVideos.
  destruct (connectToDb env st) as [st1|] eqn:C; [|discriminate].
  destruct (connect_docs env st st1 C) as (Hd & _ & _).
  destruct find_ok; simpl; [|discriminate].
  destruct (existsb _ _); simpl; [discriminate|].
  intros H; inversion H. rewrite Hd. reflexivity.
Qed.

Lemma sort_desc_last (l : list Doc) (d : Doc) :
  (forall x, In x l -> d_createdAt x < d_createdAt d) ->
  sort_desc (l ++ [d]) = d :: sort_desc l.
Proof.
  induction l as [|x xs IH]; intros H; simpl; [reflexivity|].
  rewrite IH by (intros y Hy; apply H; right; exact Hy). simpl.
  destruct (Z.leb_spec (d_createdAt d) (d_createdAt x)) as [Hle|_]; [|reflexivity].
  specialize (H x (or_introl eq_refl)). lia.
Qed.

Lemma in_firstn (n : nat) (l : list Doc) (x : Doc) : In x (firstn n l) -> In x l.
Proof. intros H. rewrite <- (firstn_skipn n l). apply in_or_app. left; exact H. Qed.

Lemma is_pending_status (d : Doc) : is_pending d = true <-> d_status d = "pending".
Proof. unfold is_pending. apply String.eqb_eq. Qed.

(** Every prompt the queued-prompts route lists is a stored document
    with status [pending], and it lists at most 10 of them. *)
Theorem GET_pending_sound (env : Env) (find_ok : bool) (st : DbState) (ds : list Doc) :
  list_data (fst (GET_pending env find_ok st)) = Some ds ->
  (List.length ds <= 10)%nat /\
  (forall d, In d ds -> In d (docs st) /\ d_status d = "pending").
Proof.
  intros H. apply GET_pending_data in H. subst ds.
  split; [rewrite length_firstn; lia|].
  intros d Hd. apply in_firstn in Hd.
  apply (Permutation_in d (sort_desc_perm _)) in Hd.
  apply filter_In in Hd. destruct Hd as [Hin Hp].
  split; [exact Hin | apply is_pending_status, Hp].
Qed.

(** The listing is ordered by [createdAt], newest first. *)
Theorem GET_pending_sorted (env : Env) (find_ok : bool) (st : DbState) (ds : list Doc) :
  list_data (fst (GET_pending env find_ok st)) = Some ds ->
  Sorted newer_eq ds.
Proof.
  intros H. apply GET_pending_data in H. subst ds.
  apply firstn_sorted, sort_desc_sorted.
Qed.

(** With at most 10 pending documents, the listing holds every one of
    them (each as often as it is stored). *)
Theorem GET_pending_complete (env : Env) (find_ok : bool) (st : DbState) (ds : list Doc) :
  (List.length (filter is_pending (docs st)) <= 10)%nat ->
  list_data (fst (GET_pending env find_ok st)) = Some ds ->
  Permutation ds (filter is_pending (docs st)).
Proof.
  intros Hlen H. apply GET_pending_data in H. subst ds.
  rewrite firstn_all2.
  - apply sort_desc_perm.
  - rewrite (Permutation_length (sort_desc_perm _)). exact Hlen.
Qed.

(** [POST] on a body that is a JSON object. *)
Lemma POST_obj (env : Env) (kv : list (string * Api.json)) (st : DbState) :
  POST env (Json (Api.JObj kv)) st =
  if negb (truthy (Api.lookup "userid" kv)) || negb (truthy (Api.lookup "prompt" kv)) then
    ({| http_status := 400; success := false; insertedId := None;
        error := Some "Missing userid or prompt" |}, st)
  else
    let '(result, st') := createVideoPrompt env kv st in
    match result with
    | CreateOk i => ({| http_status := 200; success := true;
                        insertedId := Some i; error := None |}, st')
    | CreateErr _ => ({| http_status := 500; success := false; insertedId := None;
                         error := Some "Failed to create video prompt" |}, st')
    end.
Proof. reflexivity. Qed.

(** [createVideoPrompt] once the body is valid, the connection is up and
    [insertOne] resolves. *)
Lemma create_insert (env : Env) (kv : list (string * Api.json)) (st st1 : DbState) :
  (negb (truthy (Api.lookup "userid" kv)) || negb (truthy (Api.lookup "prompt" kv)))%bool = false ->
  connectToDb env st = Some st1 ->
  insert_ok env = true ->
  createVideoPrompt env kv st = (create_tail env kv st, after_insert env kv st).
Proof.
  intros V C I. unfold createVideoPrompt. rewrite V, C, I.
  destruct (connect_docs env st st1 C) as (Hd & Hn & Hc).
  destruct st1 as [c1 d1 n1]; simpl in Hd, Hn, Hc; subst.
  unfold create_tail, after_insert, new_doc, new_id, new_next.
  destruct (supplied_id kv); simpl;
    repeat match goal with |- context [if ?b then _ else _] => destruct b end; reflexivity.
Qed.

Lemma create_tail_ok (env : Env) (kv : list (string * Api.json)) (st : DbState) (i : DocId) :
  create_tail env kv st = CreateOk i -> i = new_id kv st.
Proof.
  unfold create_tail.
  repeat match goal with |- context [if ?b then _ else _] => destruct b end;
    congruence.
Qed.

(** [createVideoPrompt] when the body is valid and the connection or the
    insert fails. *)
Lemma create_no_insert (env : Env) (kv : list (string * Api.json)) (st : DbState) :
  (negb (truthy (Api.lookup "userid" kv)) || negb (truthy (Api.lookup "prompt" kv)))%bool = false ->
  (connectToDb env st = None /\ createVideoPrompt env kv st =
     (CreateErr "Failed to connect to the database.", st)) \/
  (insert_ok env = false /\ createVideoPrompt env kv st =
     (CreateErr "Failed to create the document.",
      {| cached := true; docs := docs st; next_id := next_id st |})) \/
  (exists st1, connectToDb env st = Some st1 /\ insert_ok env = true).
Proof.
  intros V. destruct (connectToDb env st) as [st1|] eqn:C.
  - destruct (insert_ok env) eqn:I; [right; right; exists st1; auto|].
    right; left. split; [reflexivity|]. unfold createVideoPrompt. rewrite V, C, I.
    destruct (connect_docs env st st1 C) as (Hd & Hn & Hc).
    destruct st1 as [c1 d1 n1]; simpl in Hd, Hn, Hc; subst. reflexivity.
  - left. split; [reflexivity|]. unfold createVideoPrompt. rewrite V, C. reflexivity.
Qed.

(** What [POST] does to the state: nothing, or it caches the connection
    and perhaps appends the one [pending] document built from the body. *)
Lemma POST_state (env : Env) (body : Body) (st : DbState) :
  snd (POST env body st) = st \/
  snd (POST env body st) = {| cached := true; docs := docs st; next_id := next_id st |} \/
  exists kv, body = Json (Api.JObj kv) /\ snd (POST env body st) = after_insert env kv st.
Proof.
  destruct body as [msg|v]; [left; reflexivity|].
  destruct v as [| | | | |kv]; try (left; reflexivity).
  rewrite POST_obj.
  destruct (negb (truthy (Api.lookup "userid" kv)) || negb (truthy (Api.lookup "prompt" kv)))%bool
    eqn:V; [left; reflexivity|].
  destruct (create_no_insert env kv st V) as [[_ E]|[[_ E]|(st1 & C & I)]].
  - rewrite E. left; reflexivity.
  - rewrite E. right; left; reflexivity.
  - rewrite (create_insert env kv st st1 V C I).
    right; right. exists kv. split; [reflexivity|].
    destruct (create_tail env kv st); reflexivity.
Qed.

(** [POST] never deletes or rewrites a stored prompt and never drops a
    cached connection: the documents after it are the documents before it
    followed by at most one new one. *)
Theorem POST_append_only (env : Env) (body : Body) (st : DbState) :
  (exists ext, docs (snd (POST env body st)) = (docs st ++ ext)%list /\ (List.length ext <= 1)%nat) /\
  Bool.le (cached st) (cached (snd (POST env body st))).
Proof.
  destruct (POST_state env body st) as [E|[E|(kv & _ & E)]]; rewrite E; simpl.
  - split; [exists []; rewrite app_nil_r; auto | destruct (cached st); reflexivity].
  - split; [exists []; rewrite app_nil_r; auto | destruct (cached st); reflexivity].
  - split; [eexists; split; [reflexivity | simpl; lia] | destruct (cached st); reflexivity].
Qed.

(** A successful [POST] is the insert path through a resolved fetch. *)
Lemma POST_success_inv (env : Env) (body : Body) (st : DbState) :
  success (fst (POST env body st)) = true ->
  exists kv, body = Json (Api.JObj kv) /\
  POST env body st =
  ({| http_status := 200; success := true; insertedId := Some (new_id kv st); error := None |},
   after_insert env kv st).
Proof.
  destruct body as [msg|v]; [discriminate|].
  destruct v as [| | | | |kv]; try discriminate.
  rewrite POST_obj.
  destruct (negb (truthy (Api.lookup "userid" kv)) || negb (truthy (Api.lookup "prompt" kv)))%bool
    eqn:V; [discriminate|].
  destruct (create_no_insert env kv st V) as [[_ E]|[[_ E]|(st1 & C & I)]];
    [rewrite E; discriminate | rewrite E; discriminate|].
  rewrite (create_insert env kv st st1 V C I).
  destruct (create_tail env kv st) as [i|e] eqn:T; [|discriminate].
  intros _. apply create_tail_ok in T. subst i.
  exists kv. split; reflexivity.
Qed.

(** A prompt accepted by [POST] at a time later than every stored prompt
    is stored once, with the body's fields, status [pending] and that
    time, under the [_id] the route answers with; every later listing the
    queued-prompts route answers with before another write starts with it. *)
Theorem POST_then_listed_first (env : Env) (body : Body) (st : DbState)
    (resp : PostResponse) (st' : DbState) :
  (forall d, In d (docs st) -> d_createdAt d < clock env) ->
  POST env body st = (resp, st') ->
  success resp = true ->
  exists kv d,
    body = Json (Api.JObj kv) /\ d_fields d = kv /\ d_status d = "pending" /\
    d_createdAt d = clock env /\ insertedId resp = Some (d_id d) /\
    docs st' = (docs st ++ [d])%list /\
    (forall env' find_ok ds,
       list_data (fst (GET_pending env' find_ok st')) = Some ds -> hd_error ds = Some d).
Proof.
  intros Hold HP Hs.
  assert (Hs' : success (fst (POST env body st)) = true) by (rewrite HP; exact Hs).
  apply POST_success_inv in Hs'. destruct Hs' as (kv & Hb & E).
  rewrite HP in E. injection E as E1 E2; subst resp st'.
  exists kv, (new_doc env kv st).
  split; [exact Hb|]. do 5 (split; [reflexivity|]).
  intros env' find_ok ds H. apply GET_pending_data in H. subst ds.
  unfold after_insert. simpl. rewrite filter_app. simpl.
  replace (is_pending (new_doc env kv st)) with true by reflexivity.
  rewrite sort_desc_last; [reflexivity|].
  intros x Hx. apply filter_In in Hx. apply Hold, Hx.
Qed.

(** When [BACKEND_API_URL] is unset or empty, or the backend [fetch]
    rejects, the route answers 500 although the prompt has been inserted:
    the document stays in the collection with status [pending]. *)
Theorem POST_backend_failure_keeps_doc (env : Env) (kv : list (string * Api.json)) (st : DbState) :
  truthy (Api.lookup "userid" kv) = true ->
  truthy (Api.lookup "prompt" kv) = true ->
  (cached st = true \/ connect_ok env = true) ->
  insert_ok env = true ->
  (truthy_str (backend_url env) = false \/ fetch_resolves env = false) ->
  POST env (Json (Api.JObj kv)) st =
  ({| http_status := 500; success := false; insertedId := None;
      error := Some "Failed to create video prompt" |},
   after_insert env kv st).
Proof.
  intros Hu Hp Hconn Hi Hb.
  assert (V : (negb (truthy (Api.lookup "userid" kv)) || negb (truthy (Api.lookup "prompt" kv)))%bool
              = false) by (rewrite Hu, Hp; reflexivity).
  assert (C : connectToDb env st = Some {| cached := true; docs := docs st; next_id := next_id st |}).
  { unfold connectToDb. destruct (cached st) eqn:Ec.
    - destruct st; simpl in *; subst; reflexivity.
    - destruct Hconn as [H|H]; [discriminate | rewrite H; reflexivity]. }
  rewrite POST_obj, V, (create_insert env kv st _ V C Hi).
  unfold create_tail.
  destruct (id_str_throws (new_id kv st)); [reflexivity|].
  destruct Hb as [Hb|Hb]; rewrite Hb; [reflexivity|].
  repeat match goal with |- context [if ?b then _ else _] => destruct b end; reflexivity.
Qed.

(** A body with a non-null [_id] (one that converts to a string) has its
    document stored under that [_id], which the route answers with; the
    ObjectIds the driver generates are not used up. *)
Theorem POST_supplied_id (env : Env) (kv : list (string * Api.json)) (st : DbState)
    (v : Api.json) :
  truthy (Api.lookup "userid" kv) = true ->
  truthy (Api.lookup "prompt" kv) = true ->
  Api.lookup "_id" kv = Some v -> v <> Api.JNull -> str_throws v = false ->
  (forall p, Api.lookup "prompt" kv = Some p -> str_throws p = false) ->
  (cached st = true \/ connect_ok env = true) ->
  insert_ok env = true ->
  truthy_str (backend_url env) = true ->
  fetch_resolves env = true ->
  POST env (Json (Api.JObj kv)) st =
  ({| http_status := 200; success := true; insertedId := Some (Supplied v); error := None |},
   {| cached := true;
      docs := (docs st ++ [mkDoc (Supplied v) kv "pending" (clock env)])%list;
      next_id := next_id st |}).
Proof.
  intros Hu Hp Hid Hnn Hs Hps Hconn Hi Hbu Hf.
  assert (S : supplied_id kv = Some v).
  { unfold supplied_id. rewrite Hid. destruct v; congruence. }
  assert (V : (negb (truthy (Api.lookup "userid" kv)) || negb (truthy (Api.lookup "prompt" kv)))%bool
              = false) by (rewrite Hu, Hp; reflexivity).
  assert (C : connectToDb env st = Some {| cached := true; docs := docs st; next_id := next_id st |}).
  { unfold connectToDb. destruct (cached st) eqn:Ec.
    - destruct st; simpl in *; subst; reflexivity.
    - destruct Hconn as [H|H]; [discriminate | rewrite H; reflexivity]. }
  rewrite POST_obj, V, (create_insert env kv st _ V C Hi).
  unfold create_tail, after_insert, new_doc, new_id, new_next. rewrite S. simpl.
  rewrite Hs, Hbu, Hf. simpl.
  destruct (Api.lookup "prompt" kv) as [p|] eqn:Ep; [rewrite (Hps p eq_refl)|]; reflexivity.
Qed.

(** The two read routes never change the collection or the id counter. *)
Theorem reads_keep_docs (env : Env) (find_ok : bool) (vs : list VideoDoc) (id0 : string)
    (st : DbState) :
  docs (snd (GET_pending env find_ok st)) = docs st /\
  next_id (snd (GET_pending env find_ok st)) = next_id st /\
  docs (snd (GET_video env find_ok vs id0 st)) = docs st /\
  next_id (snd (GET_video env find_ok vs id0 st)) = next_id st.
Proof.
  unfold GET_pending, getLatestPendingVideos, GET_video, getVideoById.
  destruct (connectToDb env st) as [st1|] eqn:C.
  - destruct (connect_docs env st st1 C) as (Hd & Hn & _).
    destruct find_ok; simpl;
      [destruct (existsb _ _)|]; simpl;
      destruct (negb (valid_object_id id0)); simpl; auto;
      destruct (find_video (lower_string id0) vs); simpl; auto.
  - simpl. auto.
Qed.

Lemma lookup_app_other (key k : string) (v : Api.json) (kv : list (string * Api.json)) :
  k <> key -> Api.lookup key (kv ++ [(k, v)])%list = Api.lookup key kv.
Proof.
  intros Hk. induction kv as [|[k1 v1] kv IH]; simpl.
  - apply String.eqb_neq in Hk. rewrite Hk. reflexivity.
  - rewrite IH. reflexivity.
Qed.

Lemma is_hex_lower (c : Ascii.ascii) : is_hex (lower c) = is_hex c.
Proof.
  destruct c as [b0 b1 b2 b3 b4 b5 b6 b7].
  destruct b0, b1, b2, b3, b4, b5, b6, b7; reflexivity.
Qed.

Lemma lower_lower (c : Ascii.ascii) : lower (lower c) = lower c.
Proof.
  destruct c as [b0 b1 b2 b3 b4 b5 b6 b7].
  destruct b0, b1, b2, b3, b4, b5, b6, b7; reflexivity.
Qed.

Lemma length_lower_string (s : string) : String.length (lower_string s) = String.length s.
Proof. induction s as [|c r IH]; simpl; [reflexivity | rewrite IH; reflexivity]. Qed.

Lemma all_hex_lower_string (s : string) : all_hex (lower_string s) = all_hex s.
Proof. induction s as [|c r IH]; simpl; [reflexivity | rewrite IH, is_hex_lower; reflexivity]. Qed.

Lemma valid_lower_string (s : string) : valid_object_id (lower_string s) = valid_object_id s.
Proof.
  unfold valid_object_id. rewrite length_lower_string, all_hex_lower_string. reflexivity.
Qed.

Lemma lower_string_idem (s : string) : lower_string (lower_string s) = lower_string s.
Proof. induction s as [|c r IH]; simpl; [reflexivity | rewrite IH, lower_lower; reflexivity]. Qed.

(** When no connection is cached and connecting fails, the video route
    answers 200 with [{success: false, error}], and [getQueueStatus]
    resolves to [undefined] instead of throwing. *)
Theorem GET_video_db_down (env : Env) (find_ok : bool) (vs : list VideoDoc) (id0 : string)
    (st : DbState) :
  cached st = false -> connect_ok env = false ->
  GET_video env find_ok vs id0 st =
  ((200, Api.JObj [("success", Api.JBool false);
                   ("error", Api.JStr "Failed to connect to the database.")]), st) /\
  Api.getQueueStatus (as_fetch (fst (GET_video env find_ok vs id0 st))) = Api.Ok None.
Proof.
  intros Hc Hr.
  assert (E : GET_video env find_ok vs id0 st =
              ((200, Api.JObj [("success", Api.JBool false);
                               ("error", Api.JStr "Failed to connect to the database.")]), st)).
  { unfold GET_video, getVideoById, connectToDb. rewrite Hc, Hr. reflexivity. }
  split; [exact E | rewrite E; reflexivity].
Qed.

(** With the database connected, an id that is not 24 hex digits makes
    the video route answer 500, and [getQueueStatus] throws. *)
Theorem GET_video_bad_id (env : Env) (find_ok : bool) (vs : list VideoDoc) (id0 : string)
    (st : DbState) :
  connectToDb env st <> None -> valid_object_id id0 = false ->
  fst (GET_video env find_ok vs id0 st) = (500, Api.JObj [("error", Api.JStr "Internal Server Error")]) /\
  Api.getQueueStatus (as_fetch (fst (GET_video env find_ok vs id0 st))) =
    Api.Throw "Failed to get queue status".
Proof.
  intros Hc Hv.
  assert (E : fst (GET_video env find_ok vs id0 st) =
              (500, Api.JObj [("error", Api.JStr "Internal Server Error")])).
  { unfold GET_video, getVideoById.
    destruct (connectToDb env st); [|congruence]. rewrite Hv. reflexivity. }
  split; [exact E | rewrite E; reflexivity].
Qed.

(** With the database connected and a well-formed id that no video has,
    the video route answers 404, and [getQueueStatus] throws. *)
Theorem GET_video_missing (env : Env) (vs : list VideoDoc) (id0 : string) (st : DbState) :
  connectToDb env st <> None -> valid_object_id id0 = true ->
  find_video (lower_string id0) vs = None ->
  fst (GET_video env true vs id0 st) = (404, Api.JObj [("error", Api.JStr "Video not found")]) /\
  Api.getQueueStatus (as_fetch (fst (GET_video env true vs id0 st))) =
    Api.Throw "Failed to get queue status".
Proof.
  intros Hc Hv Hf.
  assert (E : fst (GET_video env true vs id0 st) =
              (404, Api.JObj [("error", Api.JStr "Video not found")])).
  { unfold GET_video, getVideoById.
    destruct (connectToDb env st); [|congruence]. rewrite Hv, Hf. reflexivity. }
  split; [exact E | rewrite E; reflexivity].
Qed.

(** For a video found by its id, the route answers 200 with the document's
    fields plus [id], and [getQueueStatus] returns the document's own
    [status] field ([undefined] when it has none). *)
Theorem GET_video_found (env : Env) (vs : list VideoDoc) (id0 : string) (st : DbState)
    (v : VideoDoc) :
  connectToDb env st <> None -> valid_object_id id0 = true ->
  find_video (lower_string id0) vs = Some v ->
  fst (GET_video env true vs id0 st) =
    (200, Api.JObj (v_fields v ++ [("id", Api.JStr (v_id v))])%list) /\
  Api.getQueueStatus (as_fetch (fst (GET_video env true vs id0 st))) =
    Api.Ok (Api.lookup "status" (v_fields v)).
Proof.
  intros Hc Hv Hf.
  assert (E : fst (GET_video env true vs id0 st) =
              (200, Api.JObj (v_fields v ++ [("id", Api.JStr (v_id v))])%list)).
  { unfold GET_video, getVideoById.
    destruct (connectToDb env st); [|congruence]. rewrite Hv, Hf. reflexivity. }
  split; [exact E|]. rewrite E. unfold Api.getQueueStatus, as_fetch. simpl.
  rewrite lookup_app_other by discriminate. reflexivity.
Qed.

(** The video route does not distinguish upper- from lower-case hex
    digits in the id. *)
Theorem GET_video_case_insensitive (env : Env) (find_ok : bool) (vs : list VideoDoc)
    (id0 : string) (st : DbState) :
  GET_video env find_ok vs (lower_string id0) st = GET_video env find_ok vs id0 st.
Proof.
  unfold GET_video, getVideoById.
  rewrite valid_lower_string, lower_string_idem. reflexivity.
Qed.

(* ------------------------------------------------------------------ *)
(** The properties at concrete inputs *)

Lemma GET_pending_sound_witness :
  (List.length [sample_doc2; sample_doc0] <= 10)%nat /\
  (forall d, In d [sample_doc2; sample_doc0] -> In d (docs sample_db) /\ d_status d = "pending").
Proof. apply (GET_pending_sound sample_env true sample_db). reflexivity. Defined.

Lemma GET_pending_sorted_witness : Sorted newer_eq [sample_doc2; sample_doc0].
Proof. apply (GET_pending_sorted sample_env true sample_db). reflexivity. Defined.

Lemma GET_pending_complete_witness :
  Permutation [sample_doc2; sample_doc0] (filter is_pending (docs sample_db)).
Proof.
  apply (GET_pending_complete sample_env true sample_db); [simpl; lia | reflexivity].
Defined.

Lemma POST_then_listed_first_witness :
  exists kv d,
    Json (Api.JObj sample_kv) = Json (Api.JObj kv) /\ d_fields d = kv /\ d_status d = "pending" /\
    d_createdAt d = clock sample_env /\
    insertedId (fst (POST sample_env (Json (Api.JObj sample_kv)) sample_db)) = Some (d_id d) /\
    docs (snd (POST sample_env (Json (Api.JObj sample_kv)) sample_db)) = (docs sample_db ++ [d])%list /\
    (forall env' find_ok ds,
       list_data (fst (GET_pending env' find_ok
                         (snd (POST sample_env (Json (Api.JObj sample_kv)) sample_db)))) = Some ds ->
       hd_error ds = Some d).
Proof.
  apply (POST_then_listed_first sample_env (Json (Api.JObj sample_kv)) sample_db).
  - simpl. intros d [<-|[<-|[<-|[]]]]; simpl; lia.
  - reflexivity.
  - reflexivity.
Defined.

Lemma POST_backend_failure_keeps_doc_witness :
  POST (mkEnv true true (Some "") true 30) (Json (Api.JObj sample_kv)) sample_db =
  ({| http_status := 500; success := false; insertedId := None;
      error := Some "Failed to create video prompt" |},
   after_insert (mkEnv true true (Some "") true 30) sample_kv sample_db).
Proof.
  apply (POST_backend_failure_keeps_doc (mkEnv true true (Some "") true 30) sample_kv sample_db);
    try reflexivity; left; reflexivity.
Defined.

Lemma POST_supplied_id_witness :
  POST sample_env (Json (Api.JObj (("_id", Api.JStr "my-id") :: sample_kv))) sample_db =
  ({| http_status := 200; success := true; insertedId := Some (Supplied (Api.JStr "my-id"));
      error := None |},
   {| cached := true;
      docs := (docs sample_db ++ [mkDoc (Supplied (Api.JStr "my-id"))
                                   (("_id", Api.JStr "my-id") :: sample_kv) "pending" 30])%list;
      next_id := 3 |}).
Proof.
  apply (POST_supplied_id sample_env (("_id", Api.JStr "my-id") :: sample_kv) sample_db
           (Api.JStr "my-id")); try reflexivity; try discriminate.
  - intros p Hp. vm_compute in Hp. injection Hp as <-. reflexivity.
  - left; reflexivity.
Defined.

Lemma GET_video_db_down_witness :
  GET_video (mkEnv false true None true 30) true sample_videos sample_oid (mkDb false [] 0) =
  ((200, Api.JObj [("success", Api.JBool false);
                   ("error", Api.JStr "Failed to connect to the database.")]), mkDb false [] 0) /\
  Api.getQueueStatus (as_fetch (fst (GET_video (mkEnv false true None true 30) true
                                        sample_videos sample_oid (mkDb false [] 0)))) = Api.Ok None.
Proof. apply GET_video_db_down; reflexivity. Defined.

Lemma GET_video_bad_id_witness :
  fst (GET_video sample_env true sample_videos "42" sample_db) =
    (500, Api.JObj [("error", Api.JStr "Internal Server Error")]) /\
  Api.getQueueStatus (as_fetch (fst (GET_video sample_env true sample_videos "42" sample_db))) =
    Api.Throw "Failed to get queue status".
Proof. apply GET_video_bad_id; [discriminate | reflexivity]. Defined.

Lemma GET_video_missing_witness :
  fst (GET_video sample_env true sample_videos "000000000000000000000000" sample_db) =
    (404, Api.JObj [("error", Api.JStr "Video not found")]) /\
  Api.getQueueStatus (as_fetch (fst (GET_video sample_env true sample_videos
                                        "000000000000000000000000" sample_db))) =
    Api.Throw "Failed to get queue status".
Proof. apply GET_video_missing; [discriminate | reflexivity | reflexivity]. Defined.

Lemma GET_video_found_witness :
  fst (GET_video sample_env true sample_videos "65A1F0C2B3D4E5F60718293A" sample_db) =
    (200, Api.JObj ([("_id", Api.JStr sample_oid); ("status", Api.JStr "completed")]
                    ++ [("id", Api.JStr sample_oid)])%list) /\
  Api.getQueueStatus (as_fetch (fst (GET_video sample_env true sample_videos
                                        "65A1F0C2B3D4E5F60718293A" sample_db))) =
    Api.Ok (Api.lookup "status" [("_id", Api.JStr sample_oid); ("status", Api.JStr "completed")]).
Proof.
  apply (GET_video_found sample_env sample_videos "65A1F0C2B3D4E5F60718293A" sample_db
           (mkVideo sample_oid [("_id", Api.JStr sample_oid); ("status", Api.JStr "completed")]));
    [discriminate | reflexivity | reflexivity].
Defined.

End MongoFacts.

(* ================================================================== *)
(** * Session ids: generate-script mints, video-status decodes *)
(* ================================================================== *)

Module SessionFacts.

Definition decimal (d : Z) : Prop := 0 <= d < 10.

Definition horner (l : list Z) (a : Z) : Z := fold_left (fun acc d => acc * 10 + d) l a.

Ltac digit_cases d H :=
  assert (d = 0 \/ d = 1 \/ d = 2 \/ d = 3 \/ d = 4 \/ d = 5 \/ d = 6 \/ d = 7
          \/ d = 8 \/ d = 9) as H by (unfold decimal in *; lia);
  repeat destruct H as [H|H]; subst d.

Lemma digit_value_char (d : Z) : decimal d -> JsStr.digit_value 10 (JsDec.digit_char d) = Some d.
Proof. intros Hd. digit_cases d H; reflexivity. Qed.

Lemma digit_char_not_sep (d : Z) : decimal d -> Ascii.eqb (JsDec.digit_char d) "_"%char = false.
Proof. intros Hd. digit_cases d H; reflexivity. Qed.

Lemma digits_chars (l : list Z) : forall rest c a,
  Forall decimal l ->
  JsStr.digits 10 (JsDec.chars l rest) c a = JsStr.digits 10 rest (c + List.length l) (horner l a).
Proof.
  unfold horner.
  induction l as [|d l IH]; intros rest c a Hl; cbn [JsDec.chars fold_left List.length].
  - rewrite Nat.add_0_r. reflexivity.
  - inversion Hl; subst. cbn [JsStr.digits]. rewrite digit_value_char by assumption.
    rewrite IH by assumption. rewrite Nat.add_succ_r. reflexivity.
Qed.

Lemma split_chars (l : list Z) :
  Forall decimal l -> JsStr.split "_"%char (JsDec.chars l "") = [JsDec.chars l ""].
Proof.
  induction l as [|d l IH]; intros Hl; [reflexivity|].
  inversion Hl; subst. cbn [JsDec.chars JsStr.split]. rewrite digit_char_not_sep by assumption.
  rewrite IH by assumption. reflexivity.
Qed.

Lemma trim_digit (d : Z) (r : string) :
  decimal d -> JsStr.trim_start (String (JsDec.digit_char d) r) = String (JsDec.digit_char d) r.
Proof. intros Hd. digit_cases d H; reflexivity. Qed.

Lemma parseInt_chars (l : list Z) :
  l <> [] -> Forall decimal l ->
  JsStr.parseInt (JsDec.chars l "") = JsNum.of_Z (horner l 0).
Proof.
  intros Hne Hl. destruct l as [|d l]; [congruence|].
  inversion Hl as [|? ? Hd Hl']; subst.
  unfold JsStr.parseInt. cbn [JsDec.chars]. rewrite trim_digit by exact Hd.
  destruct l as [|d2 l2].
  - digit_cases d H; reflexivity.
  - inversion Hl' as [|? ? Hd2 Hl2]; subst. cbn [JsDec.chars].
    unfold horner. cbn [fold_left].
    digit_cases d H; digit_cases d2 H2; simpl;
      rewrite digits_chars by assumption; reflexivity.
Qed.

Lemma dec_list_props (fuel : nat) : forall n,
  0 <= n < 10 ^ Z.of_nat (S fuel) ->
  JsDec.dec_list fuel n <> [] /\ Forall decimal (JsDec.dec_list fuel n) /\
  horner (JsDec.dec_list fuel n) 0 = n.
Proof.
  induction fuel as [|f IH]; intros n Hn.
  - simpl in Hn. simpl. split; [discriminate|]. split.
    + constructor; [unfold decimal; apply Z.mod_pos_bound; lia | constructor].
    + unfold horner; simpl. rewrite Z.mod_small by lia. reflexivity.
  - simpl. destruct (Z.ltb_spec n 10).
    + split; [discriminate|]. split; [constructor; [unfold decimal; lia | constructor]|].
      reflexivity.
    + assert (Hq : 0 <= n / 10 < 10 ^ Z.of_nat (S f)).
      { split; [apply Z.div_pos; lia|].
        apply Z.div_lt_upper_bound; [lia|].
        rewrite Nat2Z.inj_succ in Hn |- *. rewrite Z.pow_succ_r in Hn by lia. lia. }
      destruct (IH (n / 10) Hq) as (Hne & Hall & Hv).
      split; [destruct (JsDec.dec_list f (n / 10)); [congruence | discriminate]|].
      split.
      * apply Forall_app. split; [exact Hall|].
        constructor; [unfold decimal; apply Z.mod_pos_bound; lia | constructor].
      * unfold horner in *. rewrite fold_left_app, Hv. simpl.
        pose proof (Z.div_mod n 10). lia.
Qed.

Lemma log2_fuel (n : Z) : 0 <= n -> 0 <= n < 10 ^ Z.of_nat (S (S (Z.to_nat (Z.log2 n)))).
Proof.
  intros Hn. split; [exact Hn|].
  assert (H2 : n < 2 ^ (Z.log2 n + 1)).
  { destruct (Z.eq_dec n 0) as [->|Hz]; [reflexivity|].
    destruct (Z.log2_spec n) as [_ H]; [lia|]. rewrite <- Z.add_1_r in H. exact H. }
  assert (H3 : 2 ^ (Z.log2 n + 1) <= 10 ^ (Z.log2 n + 1)).
  { apply Z.pow_le_mono_l. pose proof (Z.log2_nonneg n). lia. }
  assert (H4 : 10 ^ (Z.log2 n + 1) <= 10 ^ Z.of_nat (S (S (Z.to_nat (Z.log2 n))))).
  { apply Z.pow_le_mono_r; [lia|]. pose proof (Z.log2_nonneg n). lia. }
  lia.
Qed.

(** The session id minted by the generate-script route at time [now]
    decodes, in the video-status route, to [now] itself. *)
Theorem session_timestamp_roundtrip (now : Z) (prompt : string) (nres : Z) :
  0 <= now ->
  VideoStatus.sessionTimestamp (GenerateScript.sessionId (GenerateScript.POST now prompt nres))
  = JsNum.of_Z now.
Proof.
  intros Hn. cbn [GenerateScript.POST GenerateScript.sessionId]. unfold JsDec.to_string.
  destruct (Z.ltb_spec now 0) as [H|_]; [lia|].
  destruct (dec_list_props (S (Z.to_nat (Z.log2 now))) now (log2_fuel now Hn))
    as (Hne & Hall & Hv).
  set (l := JsDec.dec_list (S (Z.to_nat (Z.log2 now))) now) in *.
  clearbody l. rewrite <- Hv.
  unfold VideoStatus.sessionTimestamp. simpl.
  rewrite split_chars by assumption. simpl.
  destruct l as [|d l']; [congruence|].
  simpl JsDec.chars. cbv iota beta.
  change (String (JsDec.digit_char d) (JsDec.chars l' "")) with (JsDec.chars (d :: l') "").
  apply parseInt_chars; [discriminate | exact Hall].
Qed.

Lemma session_timestamp_roundtrip_witness :
  VideoStatus.sessionTimestamp
    (GenerateScript.sessionId (GenerateScript.POST 1700000000123 "integrals" 2))
  = JsNum.of_Z 1700000000123.
Proof. apply session_timestamp_roundtrip. lia. Defined.

End SessionFacts.

(* ================================================================== *)
(** * Session ids without a timestamp *)
(* ================================================================== *)

Module StatusMore.
Import VideoStatus.

(** The response of the completed branch. *)
Definition completed_response : VideoStatusResponse :=
  {| vs_status := "completed"; vs_progress := None;
     vs_message := Some "Video generated successfully";
     vs_videoUrl := Some mock_video_url; vs_error := None |}.

Lemma is_nan_spec (x : float) : JsNum.is_nan x = true -> Prim2SF x = SpecFloat.S754_nan.
Proof.
  unfold JsNum.is_nan. rewrite eqb_spec. unfold SFeqb, SpecFloat.SFcompare.
  destruct (Prim2SF x) as [s|s| |s m e]; try (destruct s; discriminate); [reflexivity|].
  destruct s; rewrite Z.compare_refl, Pos.compare_cont_refl; discriminate.
Qed.

Lemma sub_nan_not_lt (x y c : float) : JsNum.is_nan y = true -> PrimFloat.ltb (x - y) c = false.
Proof.
  intros Hy. rewrite ltb_spec, sub_spec, (is_nan_spec y Hy).
  unfold SF64sub, SpecFloat.SFsub.
  destruct (Prim2SF x); reflexivity.
Qed.

(** A session id whose second [_]-separated field does not parse as an
    integer (so [sessionTimestamp] is NaN) is reported completed, with the
    mock video URL, at every time. *)
Theorem GET_nan_timestamp_completed (sessionId : string) (now : Z) :
  JsNum.is_nan (sessionTimestamp sessionId) = true ->
  GET sessionId now = completed_response.
Proof.
  intros H. unfold GET, response_for_elapsed.
  rewrite sub_nan_not_lt by exact H. reflexivity.
Qed.

Lemma GET_nan_timestamp_completed_witness :
  GET "session_abc" 1700000000000 = completed_response.
Proof. apply GET_nan_timestamp_completed. vm_compute. reflexivity. Defined.

End StatusMore.
